(** * LittleFS upload pipeline of [src/extension.ts]

    A shallow embedding of the command handler registered by [activate]
    (geometry resolution from the board's configuration, tool lookup,
    builder and uploader invocations) together with the properties the
    design document states about it.

    The handler is effectful: it writes to the terminal, asks the file
    system and the platform, draws a temporary name and spawns two external
    processes.  It is modelled as a computation in a small trace monad
    whose answers come from a [World] record; the trace lists the handler's
    operations in program order. *)

From Stdlib Require Import ZArith List String Ascii Bool Lia DecimalString.
Import ListNotations.

Local Open Scope string_scope.
Local Open Scope Z_scope.

(** ** JavaScript values used by the handler *)

Module Js.

(** Numbers.  The handler only ever computes with flash addresses, sizes
    and baud rates, so the model keeps the integer fragment of the
    JavaScript number type plus [NaN], the result of a failed conversion.
    Integers are exact; the model agrees with JavaScript on integers of
    magnitude below 2^53 (beyond that JavaScript rounds, and prints in
    exponent form from 10^21 on). *)
Inductive number : Type :=
| NaN
| Int (z : Z).

(** [!n] *)
Definition falsy (n : number) : bool :=
  match n with
  | NaN => true
  | Int z => z =? 0
  end.

(** [a - b] *)
Definition sub (a b : number) : number :=
  match a, b with
  | Int x, Int y => Int (x - y)
  | _, _ => NaN
  end.

(** [a <= b]: every comparison with [NaN] is false. *)
Definition leb (a b : number) : bool :=
  match a, b with
  | Int x, Int y => x <=? y
  | _, _ => false
  end.

(** [String(n)] for a number. *)
Definition toString (n : number) : string :=
  match n with
  | NaN => "NaN"
  | Int z => NilZero.string_of_int (Z.to_int z)
  end.

(** White space that [Number] strips on both sides (the ASCII part of
    StrWhiteSpaceChar: TAB, LF, VT, FF, CR, SP). *)
Definition isWhiteSpace (c : ascii) : bool :=
  let n := nat_of_ascii c in
  (Nat.leb 9 n && Nat.leb n 13) || Nat.eqb n 32.

Fixpoint trimStart (s : string) : string :=
  match s with
  | String c s' => if isWhiteSpace c then trimStart s' else s
  | EmptyString => EmptyString
  end.

Fixpoint rev_onto (s acc : string) : string :=
  match s with
  | EmptyString => acc
  | String c s' => rev_onto s' (String c acc)
  end.

Definition reverse (s : string) : string := rev_onto s EmptyString.

Definition trim (s : string) : string :=
  reverse (trimStart (reverse (trimStart s))).

(** Value of a digit in a given base, if it is one. *)
Definition digitValue (base : Z) (c : ascii) : option Z :=
  let n := Z.of_nat (nat_of_ascii c) in
  let v :=
    if (48 <=? n) && (n <=? 57) then Some (n - 48)
    else if (97 <=? n) && (n <=? 102) then Some (n - 87)
    else if (65 <=? n) && (n <=? 70) then Some (n - 55)
    else None in
  match v with
  | Some d => if d <? base then Some d else None
  | None => None
  end.

Fixpoint digitsFrom (base : Z) (s : string) (acc : Z) : option Z :=
  match s with
  | EmptyString => Some acc
  | String c s' =>
      match digitValue base c with
      | Some d => digitsFrom base s' (acc * base + d)
      | None => None
      end
  end.

(** A non-empty run of digits. *)
Definition digits (base : Z) (s : string) : option Z :=
  match s with
  | EmptyString => None
  | _ => digitsFrom base s 0
  end.

Definition ofDigits (o : option Z) : number :=
  match o with
  | Some z => Int z
  | None => NaN
  end.

(** [Number(s)] for a string, on integer literals: surrounding white
    space is dropped, the empty string is 0, [0x], [0o] and [0b] prefixes
    select the base, a decimal literal may carry a sign.  Anything else is
    [NaN].  Decimal literals with a fraction part or an exponent, and
    [Infinity], are numbers in JavaScript too; they do not occur as flash
    addresses and lie outside the modelled fragment. *)
Definition NumberOfString (s : string) : number :=
  match trim s with
  | EmptyString => Int 0
  | String "0" (String "x" r) | String "0" (String "X" r) => ofDigits (digits 16 r)
  | String "0" (String "o" r) | String "0" (String "O" r) => ofDigits (digits 8 r)
  | String "0" (String "b" r) | String "0" (String "B" r) => ofDigits (digits 2 r)
  | String "+" r => ofDigits (digits 10 r)
  | String "-" r => ofDigits (option_map Z.opp (digits 10 r))
  | t => ofDigits (digits 10 t)
  end.

(** [Number(v)] for a property read that may be [undefined]. *)
Definition Number (v : option string) : number :=
  match v with
  | Some s => NumberOfString s
  | None => NaN
  end.

(** Truthiness of a string that may be [undefined]. *)
Definition truthy (v : option string) : bool :=
  match v with
  | Some EmptyString => false
  | Some _ => true
  | None => false
  end.

(** [x + s] where [x] may be [undefined]. *)
Definition concatUndef (x : option string) (s : string) : string :=
  match x with
  | Some t => t ++ s
  | None => "undefined" ++ s
  end.

End Js.

(** ** Text helpers *)

Definition CR : string := String (ascii_of_nat 13) EmptyString.
Definition LF : string := String (ascii_of_nat 10) EmptyString.
Definition CRLF : string := CR ++ LF.
Definition ESC : string := String (ascii_of_nat 27) EmptyString.

(** [s.replace(/\n/g, "\r\n")] *)
Fixpoint replaceLF (s : string) : string :=
  match s with
  | EmptyString => EmptyString
  | String c s' =>
      if Ascii.eqb c (ascii_of_nat 10)
      then String (ascii_of_nat 13) (String (ascii_of_nat 10) (replaceLF s'))
      else String c (replaceLF s')
  end.

(** [s.split(sep)] for a one-character separator. *)
Fixpoint split (sep : ascii) (s : string) : list string :=
  match s with
  | EmptyString => [EmptyString]
  | String c s' =>
      if Ascii.eqb c sep then EmptyString :: split sep s'
      else match split sep s' with
           | h :: t => String c h :: t
           | [] => [String c EmptyString]
           end
  end.

(** [xs.join(sep)] *)
Fixpoint join (sep : string) (xs : list string) : string :=
  match xs with
  | [] => EmptyString
  | [x] => x
  | x :: rest => x ++ sep ++ join sep rest
  end.

(** ** Board metadata, as supplied by the Arduino context *)

Record ConfigValue : Type := {
  value : string;
  selected : bool
}.

Record ConfigOption : Type := {
  option_ : string;
  values : list ConfigValue
}.

(** [buildProperties] is an object used as a map; it is kept as the list of
    its entries in [Object.keys] order. *)
Record BoardDetails : Type := {
  buildProperties : list (string * string);
  configOptions : list ConfigOption
}.

Record Port : Type := {
  address : string;
  protocol : string
}.

Record ArduinoContext : Type := {
  boardDetails : option BoardDetails;
  fqbn : option string;
  sketchPath : option string;
  port : option Port
}.

(** [props[key]] *)
Fixpoint getProperty (props : list (string * string)) (key : string) : option string :=
  match props with
  | [] => None
  | (k, v) :: rest => if String.eqb k key then Some v else getProperty rest key
  end.

Definition isDefined {A : Type} (o : option A) : bool :=
  match o with
  | Some _ => true
  | None => false
  end.

(** One round of the [forEach] in [findTool]; the state is [(found, ret)]. *)
Definition findToolStep (props : list (string * string)) (match_ : string)
    (st : bool * option string) (elem : string) : bool * option string :=
  let '(found, ret) := st in
  if prefix match_ elem && negb found && isDefined (getProperty props elem)
  then (true, getProperty props elem)
  else (found, ret).

Definition findTool (ctx : ArduinoContext) (match_ : string) : option string :=
  match boardDetails ctx with
  | Some bd =>
      snd (fold_left (findToolStep (buildProperties bd) match_)
                     (map fst (buildProperties bd)) (false, None))
  | None => None
  end.

(** ** Geometry resolution (the [configOptions.forEach] of the handler) *)

Record Geometry : Type := {
  fsStart : Js.number;
  fsEnd : Js.number;
  page : Js.number;
  blocksize : Js.number;
  uploadSpeed : Js.number
}.

Definition initialGeometry : Geometry :=
  {| fsStart := Js.Int 0; fsEnd := Js.Int 0; page := Js.Int 0;
     blocksize := Js.Int 0; uploadSpeed := Js.Int 115200 |}.

Section Resolve.

Variable props : list (string * string).
Variables pico esp8266 : bool.

Definition optSeek : string := if pico then "flash" else "eesz".
Definition startMarker : string := if pico then "fs_start" else "spiffs_start".
Definition endMarker : string := if pico then "fs_end" else "spiffs_end".

Definition menustr (itm : ConfigValue) : string :=
  "menu." ++ optSeek ++ "." ++ value itm ++ ".build.".

(** Body of the inner [forEach] for the sizing option. *)
Definition sizingItem (g : Geometry) (itm : ConfigValue) : Geometry :=
  if selected itm then
    let start := Js.Number (getProperty props (menustr itm ++ startMarker)) in
    let end_ := Js.Number (getProperty props (menustr itm ++ endMarker)) in
    if pico then
      {| fsStart := start; fsEnd := end_; page := Js.Int 256;
         blocksize := Js.Int 4096; uploadSpeed := uploadSpeed g |}
    else if esp8266 then
      {| fsStart := start; fsEnd := end_;
         page := Js.Number (getProperty props (menustr itm ++ "spiffs_pagesize"));
         blocksize := Js.Number (getProperty props (menustr itm ++ "spiffs_blocksize"));
         uploadSpeed := uploadSpeed g |}
    else
      {| fsStart := start; fsEnd := end_; page := page g;
         blocksize := blocksize g; uploadSpeed := uploadSpeed g |}
  else g.

(** Body of the inner [forEach] for the [baud] option. *)
Definition baudItem (g : Geometry) (itm : ConfigValue) : Geometry :=
  if selected itm then
    {| fsStart := fsStart g; fsEnd := fsEnd g; page := page g;
       blocksize := blocksize g;
       uploadSpeed := Js.Number (Some (value itm)) |}
  else g.

(** Body of the outer [forEach]. *)
Definition scanOption (g : Geometry) (opt : ConfigOption) : Geometry :=
  if String.eqb (option_ opt) optSeek then fold_left sizingItem (values opt) g
  else if String.eqb (option_ opt) "baud" then fold_left baudItem (values opt) g
  else g.

Definition resolveGeometry (opts : list ConfigOption) : Geometry :=
  fold_left scanOption opts initialGeometry.

End Resolve.

(** The test guarding line 135:
    [!fsStart || !fsEnd || !page || !blocksize || (fsEnd <= fsStart)]. *)
Definition geometryRejected (g : Geometry) : bool :=
  Js.falsy (fsStart g) || Js.falsy (fsEnd g) || Js.falsy (page g)
  || Js.falsy (blocksize g) || Js.leb (fsEnd g) (fsStart g).

(** [buildOpts] and the two shapes of [uploadOpts]. *)
Definition buildOpts (dataFolder : string) (g : Geometry) (imageFile : string) : list string :=
  ["-c"; dataFolder; "-p"; Js.toString (page g); "-b"; Js.toString (blocksize g);
   "-s"; Js.toString (Js.sub (fsEnd g) (fsStart g)); imageFile].

Definition uploadOptsPico (uf2conv : string) (g : Geometry) (serialPort imageFile : string)
    : list string :=
  [uf2conv; "--base"; Js.toString (fsStart g); "--serial"; serialPort;
   "--family"; "RP2040"; imageFile].

Definition uploadOptsEsp (upload : string) (g : Geometry) (serialPort imageFile : string)
    : list string :=
  [upload; "--chip"; "esp8266"; "--port"; serialPort; "--baud";
   Js.toString (uploadSpeed g); "write_flash"; Js.toString (fsStart g); imageFile].

(** ** The handler's surroundings *)

(** What the handler does to the outside, in program order. *)
Inductive Event : Type :=
| ShowErrorMessage (msg : string)
| ShowInformationMessage (msg : string)
| SetTimeout (ms : Z)
| Fire (data : string)
| ExistsSync (path : string)
| FindTool (match_ : string)
| PortCheck
| TmpNameSync (postfix : string)
| Spawn (command : string) (args : list string).

(** Error kinds of the design document, section 7. *)
Inductive ErrorKind : Type :=
| MissingBoardDetails
| MissingDataFolder
| UnsupportedBoard
| MissingFilesystemConfig
| UnsupportedPort
| SpawnFailure
| BuildFailure (code : Z)
| UploadFailure (code : Z).

(** How one invocation ends: at one of the error returns, at the end of the
    function, or never (an [await] that is not resumed). *)
Inductive Outcome : Type :=
| Failed (e : ErrorKind)
| Completed
| Pending.

(** The ['close'] event of a child process: its exit code, [null] when the
    process was ended by a signal. *)
Inductive CloseEvent : Type :=
| NoClose
| Closed (code : option Z).

(** A child process as the handler can observe it.  [errorEvent] is the
    ['error'] event Node emits when the command could not be launched. *)
Record ChildProcess : Type := {
  errorEvent : option string;
  stdout : list string;
  stderr : list string;
  close : CloseEvent
}.

Record World : Type := {
  (** number of 100 ms polls after which the terminal has opened *)
  writerReadyAfter : option nat;
  existsSync : string -> bool;
  platform : string;
  tmpNameSync : string -> string;
  spawn : string -> list string -> ChildProcess
}.

(** ** The handler monad: a trace, then a value or an early return *)

Inductive Step (A : Type) : Type :=
| Next (a : A)
| Return (o : Outcome).

Arguments Next {A} a.
Arguments Return {A} o.

Definition Handler (A : Type) : Type := (list Event * Step A)%type.

Definition ret {A : Type} (a : A) : Handler A := ([], Next a).

Definition bind {A B : Type} (m : Handler A) (k : A -> Handler B) : Handler B :=
  match m with
  | (t, Next a) => ((t ++ fst (k a))%list, snd (k a))
  | (t, Return o) => (t, Return o)
  end.

Declare Scope handler_scope.
Delimit Scope handler_scope with handler.
Notation "x <- m ;; k" := (bind m (fun x => k))
  (at level 61, m at next level, right associativity) : handler_scope.
Notation "m ;; k" := (bind m (fun _ => k))
  (at level 61, right associativity) : handler_scope.
Local Open Scope handler_scope.

Definition emit (e : Event) : Handler unit := ([e], Next tt).
Definition exit {A : Type} (o : Outcome) : Handler A := ([], Return o).
Definition fire (s : string) : Handler unit := emit (Fire s).

(** [if (c) { fire(msg); return; }] *)
Definition failWhen (c : bool) (msg : string) (e : ErrorKind) : Handler unit :=
  if c then fire msg ;; exit (Failed e) else ret tt.

(** [while (!writerReady) await setTimeout(100)] *)
Definition awaitWriterReady (w : World) : Handler unit :=
  match writerReadyAfter w with
  | Some n => (repeat (SetTimeout 100) n, Next tt)
  | None => exit Pending
  end.

(** [findTool], recorded in the trace. *)
Definition locate (ctx : ArduinoContext) (match_ : string) : Handler (option string) :=
  emit (FindTool match_) ;; ret (findTool ctx match_).

(** [if (dir) name = dir + "/" + name] *)
Definition under (dir : option string) (name : string) : string :=
  match dir with
  | Some d => if Js.truthy dir then d ++ "/" ++ name else name
  | None => name
  end.

(** The two [for await] loops over a child's output, then the wait for
    ['close']. *)
Definition drain (p : ChildProcess) : Handler (option Z) :=
  (map (fun chunk => Fire (replaceLF chunk)) (stdout p), Next tt) ;;
  (map (fun chunk => Fire (replaceLF chunk)) (stderr p), Next tt) ;;
  match close p with
  | Closed code => ret code
  | NoClose => exit Pending
  end.

(** [if (exitCode)] and [String(exitCode)] for a code that may be [null]. *)
Definition codeTruthy (code : option Z) : bool :=
  match code with
  | Some c => negb (c =? 0)
  | None => false
  end.

Definition codeToString (code : option Z) : string :=
  match code with
  | Some c => Js.toString (Js.Int c)
  | None => "null"
  end.

Definition codeValue (code : option Z) : Z :=
  match code with
  | Some c => c
  | None => 0
  end.

(** The [switch] on the second segment of the board name: [(pico, esp8266)],
    or nothing in the [default] case. *)
Definition family (fqbn : string) : option (bool * bool) :=
  match nth_error (split ":" fqbn) 1 with
  | Some seg =>
      if String.eqb seg "rp2040" then Some (true, false)
      else if String.eqb seg "esp8266" then Some (false, true)
      else None
  | None => None
  end.

Definition dataFolderOf (ctx : ArduinoContext) : string :=
  Js.concatUndef (sketchPath ctx) "/data".

Definition ext (w : World) : string :=
  if String.eqb (platform w) "win32" then ".exe" else "".

(** *** Stages of the handler, in source order *)

(** Lines 140-152: the builder command. *)
Definition locateMklittlefs (ctx : ArduinoContext) (w : World) (pico : bool) : Handler string :=
  tool <- (if pico then locate ctx "runtime.tools.pqt-mklittlefs"
           else locate ctx "runtime.tools.mklittlefs") ;;
  ret (under tool ("mklittlefs" ++ ext w)).

(** Lines 155-165: the serial port. *)
Definition checkPort (ctx : ArduinoContext) : Handler string :=
  emit PortCheck ;;
  match port ctx with
  | None =>
      fire ("ERROR: No port specified, check IDE menus." ++ CRLF) ;;
      exit (Failed UnsupportedPort)
  | Some p =>
      failWhen (negb (String.eqb (protocol p) "serial"))
               ("ERROR: Only serial port upload supported at this time." ++ CRLF)
               UnsupportedPort ;;
      ret (address p)
  end.

(** Lines 167-176: the interpreter command. *)
Definition locatePython3 (ctx : ArduinoContext) (w : World) (pico esp8266 : bool)
    : Handler string :=
  python3Path <- (if pico then locate ctx "runtime.tools.pqt-python3"
                  else if esp8266 then locate ctx "runtime.tools.python3"
                  else ret None) ;;
  ret (under python3Path ("python3" ++ ext w)).

(** Lines 183-204: build the image. *)
Definition buildImage (w : World) (mklittlefs dataFolder : string) (g : Geometry)
    (imageFile : string) : Handler unit :=
  let opts := buildOpts dataFolder g imageFile in
  fire ("Building LittleFS filesystem" ++ CRLF) ;;
  fire (mklittlefs ++ " " ++ join " " opts ++ CRLF) ;;
  emit (Spawn mklittlefs opts) ;;
  exitCode <- drain (spawn w mklittlefs opts) ;;
  failWhen (codeTruthy exitCode)
           ("ERROR:  Mklittlefs failed, error code: " ++ codeToString exitCode ++ CRLF ++ CRLF)
           (BuildFailure (codeValue exitCode)).

(** Lines 206-222: the uploader's arguments. *)
Definition makeUploadOpts (ctx : ArduinoContext) (pico : bool) (g : Geometry)
    (serialPort imageFile : string) : Handler (list string) :=
  if pico then
    uf2Path <- locate ctx "runtime.platform.path" ;;
    ret (uploadOptsPico (under uf2Path "tools/uf2conv.py") g serialPort imageFile)
  else
    uploadPath <- locate ctx "runtime.platform.path" ;;
    ret (uploadOptsEsp (under uploadPath "tools/upload.py") g serialPort imageFile).

(** Lines 224-241: upload the image. *)
Definition uploadImage (w : World) (python3 : string) (opts : list string) : Handler unit :=
  fire (CRLF ++ CRLF ++ "Uploading LittleFS filesystem" ++ CRLF) ;;
  fire (python3 ++ " " ++ join " " opts ++ CRLF) ;;
  emit (Spawn python3 opts) ;;
  exitCode <- drain (spawn w python3 opts) ;;
  failWhen (codeTruthy exitCode)
           ("ERROR:  Upload failed, error code: " ++ codeToString exitCode ++ CRLF ++ CRLF)
           (UploadFailure (codeValue exitCode)).

(** The upload stage (lines 206-244), entered after a successful build. *)
Definition uploadStage (ctx : ArduinoContext) (w : World) (pico : bool) (g : Geometry)
    (py sp img : string) : Handler unit :=
  uploadOpts <- makeUploadOpts ctx pico g sp img ;;
  uploadImage w py uploadOpts ;;
  fire (CRLF ++ "Completed upload." ++ CRLF ++ CRLF) ;;
  emit (ShowInformationMessage "LittleFS upload completed!").

(** Lines 183-244: build, then upload, then report. *)
Definition buildAndUpload (ctx : ArduinoContext) (w : World) (pico : bool) (g : Geometry)
    (mklittlefs python3 dataFolder serialPort imageFile : string) : Handler unit :=
  buildImage w mklittlefs dataFolder g imageFile ;;
  uploadOpts <- makeUploadOpts ctx pico g serialPort imageFile ;;
  uploadImage w python3 uploadOpts ;;
  fire (CRLF ++ "Completed upload." ++ CRLF ++ CRLF) ;;
  emit (ShowInformationMessage "LittleFS upload completed!").

(** Lines 102-245, once the family is known. *)
Definition pipeline (ctx : ArduinoContext) (w : World) (bd : BoardDetails)
    (dataFolder : string) (pico esp8266 : bool) : Handler unit :=
  let g := resolveGeometry (buildProperties bd) pico esp8266 (configOptions bd) in
  failWhen (geometryRejected g)
           ("ERROR: No filesystem specified, check flash size menu" ++ CRLF)
           MissingFilesystemConfig ;;
  mklittlefs <- locateMklittlefs ctx w pico ;;
  serialPort <- checkPort ctx ;;
  python3 <- locatePython3 ctx w pico esp8266 ;;
  emit (TmpNameSync ".littlefs.bin") ;;
  let imageFile := tmpNameSync w ".littlefs.bin" in
  buildAndUpload ctx w pico g mklittlefs python3 dataFolder serialPort imageFile.

(** The command handler (lines 57-245). *)
Definition uploadLittleFS (arduinoContext : ArduinoContext) (w : World) : Handler unit :=
  match boardDetails arduinoContext, fqbn arduinoContext with
  | Some bd, Some fq =>
      awaitWriterReady w ;;
      fire (ESC ++ "[2J" ++ ESC ++ "[3J" ++ ESC ++ "[;H") ;;
      fire ("LittleFS Filesystem Uploader" ++ CRLF ++ CRLF) ;;
      let dataFolder := dataFolderOf arduinoContext in
      emit (ExistsSync dataFolder) ;;
      failWhen (negb (existsSync w dataFolder))
               ("ERROR: No data folder found" ++ CRLF) MissingDataFolder ;;
      match family fq with
      | Some (pico, esp8266) => pipeline arduinoContext w bd dataFolder pico esp8266
      | None =>
          fire ("ERROR: Only Arduino-Pico RP2040 and ESP8266 supported." ++ CRLF) ;;
          exit (Failed UnsupportedBoard)
      end
  | _, _ =>
      emit (ShowErrorMessage "Board details not available. Compile the sketch once.") ;;
      exit (Failed MissingBoardDetails)
  end.

(** A run: the trace of the invocation and how it ended. *)
Definition trace (r : Handler unit) : list Event := fst r.

Definition outcome (r : Handler unit) : Outcome :=
  match snd r with
  | Next _ => Completed
  | Return o => o
  end.

(** ** Sample boards and worlds (the scenarios of section 8) *)

Module Samples.

Definition cv (v : string) (sel : bool) : ConfigValue :=
  {| value := v; selected := sel |}.

Definition picoBoard : BoardDetails :=
  {| buildProperties :=
       [("menu.flash.4M_1M.build.fs_start", "0x300000");
        ("menu.flash.4M_1M.build.fs_end", "0x400000");
        ("menu.flash.4M_2M.build.fs_start", "2097152");
        ("menu.flash.4M_2M.build.fs_end", "4194304");
        ("runtime.tools.pqt-mklittlefs.path", "/opt/pqt/mklittlefs");
        ("runtime.tools.pqt-python3.path", "/opt/pqt/python3");
        ("runtime.platform.path", "/opt/pico")];
     configOptions :=
       [{| option_ := "flash"; values := [cv "4M_0" false; cv "4M_1M" true; cv "4M_2M" false] |};
        {| option_ := "freq"; values := [cv "133" true] |}] |}.

Definition espBoard : BoardDetails :=
  {| buildProperties :=
       [("menu.eesz.4M1M.build.spiffs_start", "0x200000");
        ("menu.eesz.4M1M.build.spiffs_end", "0x2FB000");
        ("menu.eesz.4M1M.build.spiffs_pagesize", "256");
        ("menu.eesz.4M1M.build.spiffs_blocksize", "8192");
        ("runtime.platform.path", "/opt/esp")];
     configOptions :=
       [{| option_ := "baud"; values := [cv "115200" false; cv "460800" true] |};
        {| option_ := "eesz"; values := [cv "4M1M" true; cv "4M2M" false] |}] |}.

Definition serial : Port := {| address := "/dev/ttyACM0"; protocol := "serial" |}.

Definition picoCtx : ArduinoContext :=
  {| boardDetails := Some picoBoard; fqbn := Some "vendor:rp2040:boardX";
     sketchPath := Some "/home/u/sketch"; port := Some serial |}.

Definition espCtx : ArduinoContext :=
  {| boardDetails := Some espBoard; fqbn := Some "vendor:esp8266:boardY";
     sketchPath := Some "/home/u/sketch"; port := Some serial |}.

Definition quiet (code : Z) : ChildProcess :=
  {| errorEvent := None; stdout := []; stderr := []; close := Closed (Some code) |}.

Definition world (tmp : string) (p : string -> list string -> ChildProcess) : World :=
  {| writerReadyAfter := Some 0%nat; existsSync := fun _ => true;
     platform := "linux"; tmpNameSync := fun postfix => tmp ++ postfix;
     spawn := p |}.

Definition ok : World := world "/tmp/tmp-1" (fun _ _ => quiet 0).

End Samples.

(** ** Projections of a trace *)

(** The processes spawned, in order. *)
Definition spawnOf (e : Event) : list (string * list string) :=
  match e with
  | Spawn c a => [(c, a)]
  | _ => []
  end.

Definition spawns (t : list Event) : list (string * list string) :=
  flat_map spawnOf t.

(** The tool lookups, the port check and the spawns, in order. *)
Definition isMark (e : Event) : bool :=
  match e with
  | FindTool _ | PortCheck | Spawn _ _ => true
  | _ => false
  end.

Definition marks (t : list Event) : list Event := filter isMark t.

(** The chunks forwarded for a child's output. *)
Definition forwarded (p : ChildProcess) : list Event :=
  (map (fun chunk => Fire (replaceLF chunk)) (stdout p)
   ++ map (fun chunk => Fire (replaceLF chunk)) (stderr p))%list.

(** ** Vocabulary of the statements *)

(** Names for what the stages compute. *)
Definition mklittlefsKey (pico : bool) : string :=
  if pico then "runtime.tools.pqt-mklittlefs" else "runtime.tools.mklittlefs".

Definition python3Key (pico : bool) : string :=
  if pico then "runtime.tools.pqt-python3" else "runtime.tools.python3".

Definition mklittlefsCmd (ctx : ArduinoContext) (w : World) (pico : bool) : string :=
  under (findTool ctx (mklittlefsKey pico)) ("mklittlefs" ++ ext w).

Definition python3Cmd (ctx : ArduinoContext) (w : World) (pico : bool) : string :=
  under (findTool ctx (python3Key pico)) ("python3" ++ ext w).

Definition uploadOptsOf (ctx : ArduinoContext) (pico : bool) (g : Geometry)
    (serialPort imageFile : string) : list string :=
  if pico
  then uploadOptsPico (under (findTool ctx "runtime.platform.path") "tools/uf2conv.py")
                      g serialPort imageFile
  else uploadOptsEsp (under (findTool ctx "runtime.platform.path") "tools/upload.py")
                     g serialPort imageFile.

Definition header (n : nat) (ctx : ArduinoContext) : list Event :=
  (repeat (SetTimeout 100) n
   ++ [Fire (ESC ++ "[2J" ++ ESC ++ "[3J" ++ ESC ++ "[;H");
       Fire ("LittleFS Filesystem Uploader" ++ CRLF ++ CRLF);
       ExistsSync (dataFolderOf ctx)])%list.

Definition announceBuild (mk : string) (opts : list string) : list Event :=
  [Fire ("Building LittleFS filesystem" ++ CRLF);
   Fire (mk ++ " " ++ join " " opts ++ CRLF);
   Spawn mk opts].

Definition announceUpload (py : string) (opts : list string) : list Event :=
  [Fire (CRLF ++ CRLF ++ "Uploading LittleFS filesystem" ++ CRLF);
   Fire (py ++ " " ++ join " " opts ++ CRLF);
   Spawn py opts].

Definition buildFailed (code : option Z) : Event :=
  Fire ("ERROR:  Mklittlefs failed, error code: " ++ codeToString code ++ CRLF ++ CRLF).

Definition uploadFailed (code : option Z) : Event :=
  Fire ("ERROR:  Upload failed, error code: " ++ codeToString code ++ CRLF ++ CRLF).

Definition completed : list Event :=
  [Fire (CRLF ++ "Completed upload." ++ CRLF ++ CRLF);
   ShowInformationMessage "LittleFS upload completed!"].

Definition noFilesystem : Event :=
  Fire ("ERROR: No filesystem specified, check flash size menu" ++ CRLF).

Definition noPort : Event :=
  Fire ("ERROR: No port specified, check IDE menus." ++ CRLF).

Definition notSerial : Event :=
  Fire ("ERROR: Only serial port upload supported at this time." ++ CRLF).

(** The geometry an invocation resolves, and the image it names. *)
Definition geometryOf (bd : BoardDetails) (pico : bool) : Geometry :=
  resolveGeometry (buildProperties bd) pico (negb pico) (configOptions bd).

Definition imageFileOf (w : World) : string := tmpNameSync w ".littlefs.bin".

Definition buildOptsOf (ctx : ArduinoContext) (w : World) (bd : BoardDetails)
    (pico : bool) : list string :=
  buildOpts (dataFolderOf ctx) (geometryOf bd pico) (imageFileOf w).

(** What has to hold for an invocation to get as far as resolving the
    geometry: board details and name are there, the terminal opens, the
    data folder exists and the board is of a supported family. *)
Record Reaches (ctx : ArduinoContext) (w : World) (bd : BoardDetails) (pico : bool)
    : Prop := {
  reach_board : boardDetails ctx = Some bd;
  reach_family : exists fq, fqbn ctx = Some fq /\ family fq = Some (pico, negb pico);
  reach_writer : exists n, writerReadyAfter w = Some n;
  reach_data : existsSync w (dataFolderOf ctx) = true
}.

(** The child ran to a ['close'] with a falsy code. *)
Definition succeeded (p : ChildProcess) : bool :=
  match close p with
  | Closed code => negb (codeTruthy code)
  | NoClose => false
  end.

(** None of the values is marked selected. *)
Definition unselected (vs : list ConfigValue) : Prop :=
  Forall (fun v => selected v = false) vs.

(** Two states of the scan agree on the filesystem layout. *)
Definition sameLayout (g g' : Geometry) : Prop :=
  fsStart g = fsStart g' /\ fsEnd g = fsEnd g'
  /\ page g = page g' /\ blocksize g = blocksize g'.




(** A world in which every tool exits with code 1. *)
Definition buildFails : World :=
  Samples.world "/tmp/tmp-1" (fun _ _ => Samples.quiet 1).

(** The selected values of the [baud] options, in sequence order. *)
Definition selectedBaud (opts : list ConfigOption) : list ConfigValue :=
  filter selected
    (flat_map values (filter (fun o => String.eqb (option_ o) "baud") opts)).

(** The baud rate the design document describes: the parsed selected value
    of the [baud] option, 115200 when none is selected (the last one when
    several are). *)
Definition baudOf (opts : list ConfigOption) : Js.number :=
  last (map (fun v => Js.Number (Some (value v))) (selectedBaud opts))
       (Js.Int 115200).

Module TwoSelected.

(** A sizing option with two values marked selected. *)
Definition props : list (string * string) :=
  [("menu.flash.A.build.fs_start", "100"); ("menu.flash.A.build.fs_end", "200");
   ("menu.flash.B.build.fs_start", "300"); ("menu.flash.B.build.fs_end", "900")].

Definition flash : ConfigOption :=
  {| option_ := "flash";
     values := [Samples.cv "A" true; Samples.cv "B" true; Samples.cv "C" false] |}.

End TwoSelected.



Module Unparsable.

(** The selected flash size has a start address that is not a number. *)
Definition board : BoardDetails :=
  {| buildProperties :=
       [("menu.flash.X.build.fs_start", "1MB");
        ("menu.flash.X.build.fs_end", "4194304")];
     configOptions :=
       [{| option_ := "flash"; values := [Samples.cv "X" true] |}] |}.

Definition ctx : ArduinoContext :=
  {| boardDetails := Some board; fqbn := Some "vendor:rp2040:boardX";
     sketchPath := Some "/home/u/sketch"; port := Some Samples.serial |}.

End Unparsable.

(** The rewriting the design document describes: a line feed becomes
    CR LF unless a carriage return already precedes it.  [prevCR] tells
    whether the previous character was a carriage return. *)
Fixpoint rewriteBareLFFrom (prevCR : bool) (s : string) : string :=
  match s with
  | EmptyString => EmptyString
  | String c s' =>
      if Ascii.eqb c (ascii_of_nat 10)
      then if prevCR
           then String c (rewriteBareLFFrom false s')
           else String (ascii_of_nat 13) (String c (rewriteBareLFFrom false s'))
      else String c (rewriteBareLFFrom (Ascii.eqb c (ascii_of_nat 13)) s')
  end.

Definition rewriteBareLF (s : string) : string := rewriteBareLFFrom false s.

(** No line feed of [s] directly follows a carriage return. *)
Fixpoint crlfFreeFrom (prevCR : bool) (s : string) : bool :=
  match s with
  | EmptyString => true
  | String c s' =>
      negb (prevCR && Ascii.eqb c (ascii_of_nat 10))
      && crlfFreeFrom (Ascii.eqb c (ascii_of_nat 13)) s'
  end.

Definition crlfFree (s : string) : bool := crlfFreeFrom false s.



(** ** The terminal and the activation (lines 10-27 and 45-56, 246) *)

(** What [makeTerminal] and [activate] do to the window. *)
Inductive WindowEvent : Type :=
| TerminalShow (name : string) (preserveFocus : option bool)
| CreateTerminal (name : string)
| WindowError (msg : string)
| RegisterCommand (command : string)
| PushSubscription.

(** The callback of the [forEach] over [vscode.window.terminals]; its
    [return] leaves the callback only. *)
Definition showIfNamed (title : string) (w : string) : list WindowEvent :=
  if String.eqb w title then [TerminalShow w (Some false)] else [].

(** [makeTerminal(title)] on the names of the open terminals: the events,
    and the terminals afterwards. *)
Definition makeTerminal (title : string) (terminals : list string)
    : list WindowEvent * list string :=
  ((flat_map (showIfNamed title) terminals
    ++ [CreateTerminal title; TerminalShow title None])%list,
   (terminals ++ [title])%list).

(** [activate], given the exports of the Arduino context extension. *)
Definition activate (exports : option ArduinoContext) (terminals : list string)
    : list WindowEvent * list string :=
  match exports with
  | None =>
      ([WindowError "Unable to load the Arduino IDE Context extension."], terminals)
  | Some _ =>
      ((fst (makeTerminal "LittleFS Upload" terminals)
        ++ [RegisterCommand "arduino-littlefs-upload.uploadLittleFS";
            PushSubscription])%list,
       snd (makeTerminal "LittleFS Upload" terminals))
  end.

(** ** Further vocabulary *)

(** The pop-up notifications of a run. *)
Definition isNotice (e : Event) : bool :=
  match e with
  | ShowErrorMessage _ | ShowInformationMessage _ => true
  | _ => false
  end.

Definition notices (t : list Event) : list Event := filter isNotice t.

(** The temporary names drawn in a run. *)
Definition isTmpName (e : Event) : bool :=
  match e with
  | TmpNameSync _ => true
  | _ => false
  end.

(** The character does not occur in the string. *)
Fixpoint without (c : ascii) (s : string) : bool :=
  match s with
  | EmptyString => true
  | String x s' => negb (Ascii.eqb x c) && without c s'
  end.

(** Every line feed of the text directly follows a carriage return. *)
Fixpoint lfGuardedFrom (prevCR : bool) (s : string) : bool :=
  match s with
  | EmptyString => true
  | String c s' =>
      (if Ascii.eqb c (ascii_of_nat 10) then prevCR else true)
      && lfGuardedFrom (Ascii.eqb c (ascii_of_nat 13)) s'
  end.

Definition lfGuarded (s : string) : bool := lfGuardedFrom false s.

(** Number of line feeds of a text. *)
Fixpoint countLF (s : string) : nat :=
  match s with
  | EmptyString => 0%nat
  | String c s' => ((if Ascii.eqb c (ascii_of_nat 10) then 1 else 0) + countLF s')%nat
  end.


(** The sizing options of a configuration. *)
Definition sizingOptions (pico : bool) (opts : list ConfigOption) : list ConfigOption :=
  filter (fun o => String.eqb (option_ o) (optSeek pico)) opts.

(** The first build property whose key starts with [match_]. *)
Definition firstWithPrefix (match_ : string) (props : list (string * string))
    : option (string * string) :=
  find (fun kv => prefix match_ (fst kv)) props.

(** The line echoed before a spawn. *)
Definition commandLine (command : string) (args : list string) : string :=
  command ++ " " ++ join " " args ++ CRLF.

(** A world in which the builder succeeds and the uploader exits with 2. *)
Definition uploadFails : World :=
  Samples.world "/tmp/tmp-1"
    (fun command _ => if String.eqb command "/opt/pqt/python3/python3"
                      then Samples.quiet 2 else Samples.quiet 0).

(** A world in which the builder is ended by a signal. *)
Definition builderKilled : World :=
  Samples.world "/tmp/tmp-1"
    (fun command _ =>
       if String.eqb command "/opt/pqt/mklittlefs/mklittlefs"
       then {| errorEvent := None; stdout := []; stderr := []; close := Closed None |}
       else Samples.quiet 0).

Module NothingSelected.

(** The rp2040 board with no flash size selected. *)
Definition board : BoardDetails :=
  {| buildProperties := buildProperties Samples.picoBoard;
     configOptions :=
       [{| option_ := "flash";
           values := [Samples.cv "4M_0" false; Samples.cv "4M_1M" false] |}] |}.

Definition ctx : ArduinoContext :=
  {| boardDetails := Some board; fqbn := Some "vendor:rp2040:boardX";
     sketchPath := Some "/home/u/sketch"; port := Some Samples.serial |}.

End NothingSelected.

Module NoPort.

Definition ctx : ArduinoContext :=
  {| boardDetails := Some Samples.picoBoard; fqbn := Some "vendor:rp2040:boardX";
     sketchPath := Some "/home/u/sketch"; port := None |}.

End NoPort.

(** ** Basic facts *)

Example Number_hex : Js.NumberOfString "0x300000" = Js.Int 3145728.
Proof. reflexivity. Qed.

Example Number_dec : Js.NumberOfString " 460800 " = Js.Int 460800.
Proof. reflexivity. Qed.

Example Number_bad : Js.NumberOfString "1M" = Js.NaN.
Proof. reflexivity. Qed.

Example Number_neg : Js.NumberOfString "-12" = Js.Int (-12).
Proof. reflexivity. Qed.

Example toString_size : Js.toString (Js.Int 1048576) = "1048576".
Proof. reflexivity. Qed.

Example toString_zero : Js.toString (Js.Int 0) = "0".
Proof. reflexivity. Qed.

Example toString_neg : Js.toString (Js.Int (-2)) = "-2".
Proof. reflexivity. Qed.

Lemma spawns_app (t1 t2 : list Event) :
  spawns (t1 ++ t2) = (spawns t1 ++ spawns t2)%list.
Proof. apply flat_map_app. Qed.

Lemma marks_app (t1 t2 : list Event) :
  marks (t1 ++ t2) = (marks t1 ++ marks t2)%list.
Proof. apply filter_app. Qed.

Lemma spawns_timeouts (n : nat) : spawns (repeat (SetTimeout 100) n) = [].
Proof. induction n; simpl; auto. Qed.

Lemma marks_timeouts (n : nat) : marks (repeat (SetTimeout 100) n) = [].
Proof. induction n; simpl; auto. Qed.

Lemma spawns_fires (f : string -> string) (l : list string) :
  spawns (map (fun chunk => Fire (f chunk)) l) = [].
Proof. induction l; simpl; auto. Qed.

Lemma marks_fires (f : string -> string) (l : list string) :
  marks (map (fun chunk => Fire (f chunk)) l) = [].
Proof. induction l; simpl; auto. Qed.

Lemma family_cases (fq : string) (pico esp8266 : bool) :
  family fq = Some (pico, esp8266) ->
  (pico = true /\ esp8266 = false) \/ (pico = false /\ esp8266 = true).
Proof.
  unfold family.
  destruct (nth_error (split ":" fq) 1) as [seg|]; [|discriminate].
  destruct (String.eqb seg "rp2040"); [intros [= <- <-]; auto|].
  destruct (String.eqb seg "esp8266"); [intros [= <- <-]; auto|discriminate].
Qed.

(** The trace monad: running a bind. *)
Lemma bind_next {A B : Type} (t : list Event) (a : A) (k : A -> Handler B) :
  bind (t, Next a) k = ((t ++ fst (k a))%list, snd (k a)).
Proof. reflexivity. Qed.

Lemma bind_return {A B : Type} (t : list Event) (o : Outcome) (k : A -> Handler B) :
  bind (t, Return o) k = (t, Return o).
Proof. reflexivity. Qed.

Lemma bind_assoc {A B C : Type} (m : Handler A) (k : A -> Handler B) (h : B -> Handler C) :
  bind (bind m k) h = bind m (fun a => bind (k a) h).
Proof.
  destruct m as [t [a|o]]; simpl; [|reflexivity].
  destruct (k a) as [t1 [b|o]]; simpl.
  - now rewrite app_assoc.
  - reflexivity.
Qed.

(** The two scenarios of section 8 of the design document. *)
Example rp2040_scenario :
  spawns (trace (uploadLittleFS Samples.picoCtx Samples.ok)) =
    [("/opt/pqt/mklittlefs/mklittlefs",
      ["-c"; "/home/u/sketch/data"; "-p"; "256"; "-b"; "4096"; "-s"; "1048576";
       "/tmp/tmp-1.littlefs.bin"]);
     ("/opt/pqt/python3/python3",
      ["/opt/pico/tools/uf2conv.py"; "--base"; "3145728"; "--serial"; "/dev/ttyACM0";
       "--family"; "RP2040"; "/tmp/tmp-1.littlefs.bin"])]
  /\ outcome (uploadLittleFS Samples.picoCtx Samples.ok) = Completed.
Proof. split; reflexivity. Qed.

Example esp8266_scenario :
  spawns (trace (uploadLittleFS Samples.espCtx Samples.ok)) =
    [("mklittlefs",
      ["-c"; "/home/u/sketch/data"; "-p"; "256"; "-b"; "8192"; "-s"; "1028096";
       "/tmp/tmp-1.littlefs.bin"]);
     ("python3",
      ["/opt/esp/tools/upload.py"; "--chip"; "esp8266"; "--port"; "/dev/ttyACM0";
       "--baud"; "460800"; "write_flash"; "2097152"; "/tmp/tmp-1.littlefs.bin"])]
  /\ outcome (uploadLittleFS Samples.espCtx Samples.ok) = Completed.
Proof. split; reflexivity. Qed.

(** ** Running the stages *)

Arguments Js.toString : simpl never.
Arguments Js.NumberOfString : simpl never.
Arguments join : simpl never.
Arguments under : simpl never.
Arguments findTool : simpl never.
Arguments resolveGeometry : simpl never.
Arguments buildOpts : simpl never.
Arguments uploadOptsPico : simpl never.
Arguments uploadOptsEsp : simpl never.
Arguments String.append : simpl never.
Arguments String.eqb : simpl never.

Lemma header_spawns (n : nat) (ctx : ArduinoContext) : spawns (header n ctx) = [].
Proof. unfold header. now rewrite spawns_app, spawns_timeouts. Qed.

Lemma header_marks (n : nat) (ctx : ArduinoContext) : marks (header n ctx) = [].
Proof. unfold header. now rewrite marks_app, marks_timeouts. Qed.

Lemma forwarded_spawns (p : ChildProcess) : spawns (forwarded p) = [].
Proof. unfold forwarded. now rewrite spawns_app, !spawns_fires. Qed.

Lemma forwarded_marks (p : ChildProcess) : marks (forwarded p) = [].
Proof. unfold forwarded. now rewrite marks_app, !marks_fires. Qed.

Lemma drain_eq (p : ChildProcess) :
  drain p = (forwarded p,
             match close p with
             | Closed code => Next code
             | NoClose => Return Pending
             end).
Proof.
  unfold drain, forwarded. destruct (close p); simpl; now rewrite app_nil_r.
Qed.

Section Stages.

Variables (ctx : ArduinoContext) (w : World).

Lemma buildImage_eq (mk df : string) (g : Geometry) (img : string) :
  buildImage w mk df g img =
    match close (spawn w mk (buildOpts df g img)) with
    | NoClose =>
        ((announceBuild mk (buildOpts df g img)
          ++ forwarded (spawn w mk (buildOpts df g img)))%list,
         Return Pending)
    | Closed code =>
        if codeTruthy code
        then ((announceBuild mk (buildOpts df g img)
               ++ forwarded (spawn w mk (buildOpts df g img))
               ++ [buildFailed code])%list,
              Return (Failed (BuildFailure (codeValue code))))
        else ((announceBuild mk (buildOpts df g img)
               ++ forwarded (spawn w mk (buildOpts df g img)))%list,
              Next tt)
    end.
Proof.
  unfold buildImage. rewrite drain_eq.
  set (opts := buildOpts df g img). set (p := spawn w mk opts).
  unfold failWhen, fire, emit, ret, exit.
  destruct (close p) as [|code]; simpl; [reflexivity|].
  destruct (codeTruthy code); simpl; [reflexivity|now rewrite app_nil_r].
Qed.

Lemma uploadImage_eq (py : string) (opts : list string) :
  uploadImage w py opts =
    match close (spawn w py opts) with
    | NoClose =>
        ((announceUpload py opts ++ forwarded (spawn w py opts))%list, Return Pending)
    | Closed code =>
        if codeTruthy code
        then ((announceUpload py opts ++ forwarded (spawn w py opts)
               ++ [uploadFailed code])%list,
              Return (Failed (UploadFailure (codeValue code))))
        else ((announceUpload py opts ++ forwarded (spawn w py opts))%list, Next tt)
    end.
Proof.
  unfold uploadImage. rewrite drain_eq. set (p := spawn w py opts).
  unfold failWhen, fire, emit, ret, exit.
  destruct (close p) as [|code]; simpl; [reflexivity|].
  destruct (codeTruthy code); simpl; [reflexivity|now rewrite app_nil_r].
Qed.

Lemma makeUploadOpts_eq (pico : bool) (g : Geometry) (sp img : string) :
  makeUploadOpts ctx pico g sp img =
    ([FindTool "runtime.platform.path"], Next (uploadOptsOf ctx pico g sp img)).
Proof. unfold makeUploadOpts, uploadOptsOf. destruct pico; reflexivity. Qed.

Lemma locateMklittlefs_eq (pico : bool) :
  locateMklittlefs ctx w pico =
    ([FindTool (mklittlefsKey pico)], Next (mklittlefsCmd ctx w pico)).
Proof. unfold locateMklittlefs, mklittlefsCmd. destruct pico; reflexivity. Qed.

Lemma locatePython3_eq (pico : bool) :
  locatePython3 ctx w pico (negb pico) =
    ([FindTool (python3Key pico)], Next (python3Cmd ctx w pico)).
Proof. unfold locatePython3, python3Cmd. destruct pico; reflexivity. Qed.

Lemma uploadStage_eq (pico : bool) (g : Geometry) (py sp img : string) :
  uploadStage ctx w pico g py sp img =
    match close (spawn w py (uploadOptsOf ctx pico g sp img)) with
    | NoClose =>
        ((FindTool "runtime.platform.path"
          :: announceUpload py (uploadOptsOf ctx pico g sp img)
          ++ forwarded (spawn w py (uploadOptsOf ctx pico g sp img)))%list,
         Return Pending)
    | Closed code =>
        if codeTruthy code
        then ((FindTool "runtime.platform.path"
               :: announceUpload py (uploadOptsOf ctx pico g sp img)
               ++ forwarded (spawn w py (uploadOptsOf ctx pico g sp img))
               ++ [uploadFailed code])%list,
              Return (Failed (UploadFailure (codeValue code))))
        else ((FindTool "runtime.platform.path"
               :: announceUpload py (uploadOptsOf ctx pico g sp img)
               ++ forwarded (spawn w py (uploadOptsOf ctx pico g sp img))
               ++ completed)%list,
              Next tt)
    end.
Proof.
  unfold uploadStage. rewrite makeUploadOpts_eq, bind_next.
  cbn [fst snd]. rewrite uploadImage_eq.
  set (opts := uploadOptsOf ctx pico g sp img). set (p := spawn w py opts).
  destruct (close p) as [|code]; [reflexivity|].
  destruct (codeTruthy code); [reflexivity|].
  unfold fire, emit. cbn [bind fst snd app]. now rewrite <- app_assoc.
Qed.

Lemma buildAndUpload_eq (pico : bool) (g : Geometry) (mk py df sp img : string) :
  buildAndUpload ctx w pico g mk py df sp img =
    match close (spawn w mk (buildOpts df g img)) with
    | NoClose =>
        ((announceBuild mk (buildOpts df g img)
          ++ forwarded (spawn w mk (buildOpts df g img)))%list,
         Return Pending)
    | Closed code =>
        if codeTruthy code
        then ((announceBuild mk (buildOpts df g img)
               ++ forwarded (spawn w mk (buildOpts df g img))
               ++ [buildFailed code])%list,
              Return (Failed (BuildFailure (codeValue code))))
        else (((announceBuild mk (buildOpts df g img)
                ++ forwarded (spawn w mk (buildOpts df g img)))
               ++ fst (uploadStage ctx w pico g py sp img))%list,
              snd (uploadStage ctx w pico g py sp img))
    end.
Proof.
  unfold buildAndUpload. rewrite buildImage_eq.
  set (opts := buildOpts df g img). set (p := spawn w mk opts).
  destruct (close p) as [|code]; [reflexivity|].
  destruct (codeTruthy code); reflexivity.
Qed.

End Stages.

(** The pipeline, test by test. *)
Lemma pipeline_eq (ctx : ArduinoContext) (w : World) (bd : BoardDetails) (pico : bool) :
  pipeline ctx w bd (dataFolderOf ctx) pico (negb pico) =
    if geometryRejected (geometryOf bd pico)
    then ([noFilesystem], Return (Failed MissingFilesystemConfig))
    else match port ctx with
         | None =>
             ([FindTool (mklittlefsKey pico); PortCheck; noPort],
              Return (Failed UnsupportedPort))
         | Some p =>
             if String.eqb (protocol p) "serial"
             then (FindTool (mklittlefsKey pico) :: PortCheck
                   :: FindTool (python3Key pico) :: TmpNameSync ".littlefs.bin"
                   :: fst (buildAndUpload ctx w pico (geometryOf bd pico)
                             (mklittlefsCmd ctx w pico) (python3Cmd ctx w pico)
                             (dataFolderOf ctx) (address p) (imageFileOf w)),
                   snd (buildAndUpload ctx w pico (geometryOf bd pico)
                          (mklittlefsCmd ctx w pico) (python3Cmd ctx w pico)
                          (dataFolderOf ctx) (address p) (imageFileOf w)))
             else ([FindTool (mklittlefsKey pico); PortCheck; notSerial],
                   Return (Failed UnsupportedPort))
         end.
Proof.
  unfold pipeline. fold (geometryOf bd pico). fold (imageFileOf w).
  unfold failWhen at 1.
  destruct (geometryRejected (geometryOf bd pico)); [reflexivity|].
  cbn [bind fst snd app ret].
  rewrite locateMklittlefs_eq. cbn [bind fst snd app].
  unfold checkPort. destruct (port ctx) as [p|]; [|reflexivity].
  unfold failWhen. destruct (String.eqb (protocol p) "serial"); [|reflexivity].
  unfold emit, ret. cbn [bind fst snd app negb].
  rewrite locatePython3_eq. cbn [bind fst snd app]. reflexivity.
Qed.

Lemma uploadLittleFS_reached (ctx : ArduinoContext) (w : World) (bd : BoardDetails)
    (pico : bool) :
  Reaches ctx w bd pico ->
  exists n,
    uploadLittleFS ctx w =
      ((header n ctx ++ fst (pipeline ctx w bd (dataFolderOf ctx) pico (negb pico)))%list,
       snd (pipeline ctx w bd (dataFolderOf ctx) pico (negb pico))).
Proof.
  intros [Hbd (fq & Hfq & Hfam) (n & Hn) Hdata]. exists n.
  unfold uploadLittleFS, awaitWriterReady, failWhen, fire, emit, ret.
  rewrite Hbd, Hfq, Hn, Hdata, Hfam. cbn [bind fst snd app negb].
  unfold header. now rewrite <- app_assoc.
Qed.

(** An invocation either reaches the pipeline or ends before any tool is
    looked up or spawned. *)
Lemma uploadLittleFS_cases (ctx : ArduinoContext) (w : World) :
  (exists bd pico, Reaches ctx w bd pico)
  \/ (marks (trace (uploadLittleFS ctx w)) = []
      /\ (outcome (uploadLittleFS ctx w) = Failed MissingBoardDetails
          \/ outcome (uploadLittleFS ctx w) = Pending
          \/ outcome (uploadLittleFS ctx w) = Failed MissingDataFolder
          \/ outcome (uploadLittleFS ctx w) = Failed UnsupportedBoard)).
Proof.
  unfold uploadLittleFS.
  destruct (boardDetails ctx) as [bd|] eqn:Hbd; [|right; simpl; auto].
  destruct (fqbn ctx) as [fq|] eqn:Hfq; [|right; simpl; auto].
  unfold awaitWriterReady.
  destruct (writerReadyAfter w) as [n|] eqn:Hn; [|right; simpl; auto].
  unfold failWhen.
  destruct (existsSync w (dataFolderOf ctx)) eqn:Hdata.
  - destruct (family fq) as [[pico esp]|] eqn:Hfam.
    + left. exists bd, pico. split; eauto.
      exists fq. split; [exact Hfq|].
      destruct (family_cases _ _ _ Hfam) as [[-> ->]|[-> ->]]; exact Hfam.
    + right. unfold trace, outcome, fire, emit, exit, ret.
      cbn [bind fst snd app negb]. rewrite marks_app, marks_timeouts. simpl. auto 6.
  - right. unfold trace, outcome, fire, emit, exit, ret.
    cbn [bind fst snd app negb]. rewrite marks_app, marks_timeouts. simpl. auto 6.
Qed.

(** ** Spawns and outcome of a run that reached the pipeline *)

Lemma spawns_cons (e : Event) (t : list Event) :
  spawns (e :: t) = (spawnOf e ++ spawns t)%list.
Proof. reflexivity. Qed.

Lemma marks_cons (e : Event) (t : list Event) :
  marks (e :: t) = ((if isMark e then [e] else []) ++ marks t)%list.
Proof. unfold marks. simpl. destruct (isMark e); reflexivity. Qed.

Section PipelineFacts.

Variables (ctx : ArduinoContext) (w : World) (bd : BoardDetails) (pico : bool).

Local Abbreviation g := (geometryOf bd pico).
Local Abbreviation df := (dataFolderOf ctx).
Local Abbreviation img := (imageFileOf w).
Local Abbreviation mk := (mklittlefsCmd ctx w pico).
Local Abbreviation py := (python3Cmd ctx w pico).
Local Abbreviation bo := (buildOpts (dataFolderOf ctx) (geometryOf bd pico) (imageFileOf w)).

Lemma spawns_uploadStage (sp : string) :
  spawns (fst (uploadStage ctx w pico g py sp img)) =
    [(py, uploadOptsOf ctx pico g sp img)].
Proof.
  rewrite uploadStage_eq.
  destruct (close _) as [|code]; [|destruct (codeTruthy code)];
    cbn [fst]; unfold announceUpload;
    rewrite !spawns_cons, ?spawns_app, forwarded_spawns; reflexivity.
Qed.

Lemma spawns_buildAndUpload (sp : string) :
  spawns (fst (buildAndUpload ctx w pico g mk py df sp img)) =
    (mk, bo) :: (if succeeded (spawn w mk bo)
                 then [(py, uploadOptsOf ctx pico g sp img)] else []).
Proof.
  rewrite buildAndUpload_eq. unfold succeeded.
  destruct (close (spawn w mk bo)) as [|code]; [|destruct (codeTruthy code)];
    cbn [fst negb]; rewrite !spawns_app, ?forwarded_spawns, ?spawns_uploadStage;
    reflexivity.
Qed.

Lemma spawns_pipeline :
  spawns (fst (pipeline ctx w bd df pico (negb pico))) =
    if geometryRejected g then []
    else match port ctx with
         | Some p =>
             if String.eqb (protocol p) "serial"
             then (mk, bo) :: (if succeeded (spawn w mk bo)
                               then [(py, uploadOptsOf ctx pico g (address p) img)]
                               else [])
             else []
         | None => []
         end.
Proof.
  rewrite pipeline_eq.
  destruct (geometryRejected g); [reflexivity|].
  destruct (port ctx) as [p|]; [|reflexivity].
  destruct (String.eqb (protocol p) "serial"); [|reflexivity].
  cbn [fst]. rewrite !spawns_cons. cbn [spawnOf app].
  apply spawns_buildAndUpload.
Qed.

Lemma marks_uploadStage (sp : string) :
  marks (fst (uploadStage ctx w pico g py sp img)) =
    [FindTool "runtime.platform.path"; Spawn py (uploadOptsOf ctx pico g sp img)].
Proof.
  rewrite uploadStage_eq.
  destruct (close _) as [|code]; [|destruct (codeTruthy code)];
    cbn [fst]; unfold announceUpload;
    rewrite !marks_cons, ?marks_app, forwarded_marks; reflexivity.
Qed.

Lemma marks_buildAndUpload (sp : string) :
  marks (fst (buildAndUpload ctx w pico g mk py df sp img)) =
    Spawn mk bo
    :: (if succeeded (spawn w mk bo)
        then [FindTool "runtime.platform.path";
              Spawn py (uploadOptsOf ctx pico g sp img)]
        else []).
Proof.
  rewrite buildAndUpload_eq. unfold succeeded.
  destruct (close (spawn w mk bo)) as [|code]; [|destruct (codeTruthy code)];
    cbn [fst negb]; rewrite !marks_app, ?forwarded_marks, ?marks_uploadStage;
    reflexivity.
Qed.

Lemma outcome_uploadStage (sp : string) :
  snd (uploadStage ctx w pico g py sp img) =
    match close (spawn w py (uploadOptsOf ctx pico g sp img)) with
    | NoClose => Return Pending
    | Closed code =>
        if codeTruthy code then Return (Failed (UploadFailure (codeValue code)))
        else Next tt
    end.
Proof.
  rewrite uploadStage_eq.
  destruct (close _) as [|code]; [|destruct (codeTruthy code)]; reflexivity.
Qed.

Lemma outcome_buildAndUpload (sp : string) :
  snd (buildAndUpload ctx w pico g mk py df sp img) =
    match close (spawn w mk bo) with
    | NoClose => Return Pending
    | Closed code =>
        if codeTruthy code then Return (Failed (BuildFailure (codeValue code)))
        else snd (uploadStage ctx w pico g py sp img)
    end.
Proof.
  rewrite buildAndUpload_eq.
  destruct (close _) as [|code]; [|destruct (codeTruthy code)]; reflexivity.
Qed.

(** Past the geometry test no return site reports a missing filesystem. *)
Lemma accepted_outcome :
  geometryRejected g = false ->
  snd (pipeline ctx w bd df pico (negb pico)) <> Return (Failed MissingFilesystemConfig).
Proof.
  intros Hacc. rewrite pipeline_eq, Hacc.
  destruct (port ctx) as [p|]; [|discriminate].
  destruct (String.eqb (protocol p) "serial"); [|discriminate].
  cbn [snd]. rewrite outcome_buildAndUpload.
  destruct (close _) as [|code]; [discriminate|].
  destruct (codeTruthy code); [discriminate|].
  rewrite outcome_uploadStage.
  destruct (close _) as [|code']; [discriminate|].
  destruct (codeTruthy code'); discriminate.
Qed.

End PipelineFacts.

(** ** Facts about geometry resolution *)

Lemma sameLayout_refl (g : Geometry) : sameLayout g g.
Proof. repeat split. Qed.

Lemma sameLayout_trans (g1 g2 g3 : Geometry) :
  sameLayout g1 g2 -> sameLayout g2 g3 -> sameLayout g1 g3.
Proof. unfold sameLayout. intuition congruence. Qed.

Section ResolveFacts.

Variable props : list (string * string).
Variables pico esp8266 : bool.

Lemma optSeek_not_baud : String.eqb (optSeek pico) "baud" = false.
Proof. destruct pico; reflexivity. Qed.

Lemma sizing_unselected (vs : list ConfigValue) (g : Geometry) :
  unselected vs -> fold_left (sizingItem props pico esp8266) vs g = g.
Proof.
  intros H. revert g. induction H as [|v vs Hv _ IH]; intros g; [reflexivity|].
  cbn [fold_left]. unfold sizingItem at 2. rewrite Hv. apply IH.
Qed.

Lemma baud_sameLayout (vs : list ConfigValue) (g : Geometry) :
  sameLayout (fold_left baudItem vs g) g.
Proof.
  revert g. induction vs as [|v vs IH]; intros g; [apply sameLayout_refl|].
  cbn [fold_left]. eapply sameLayout_trans; [apply IH|].
  unfold baudItem. destruct (selected v); repeat split.
Qed.

Lemma sizing_uploadSpeed (vs : list ConfigValue) (g : Geometry) :
  uploadSpeed (fold_left (sizingItem props pico esp8266) vs g) = uploadSpeed g.
Proof.
  revert g. induction vs as [|v vs IH]; intros g; [reflexivity|].
  cbn [fold_left]. rewrite IH. unfold sizingItem.
  destruct (selected v), pico, esp8266; reflexivity.
Qed.

(** The sizing option: the state after its values is the one its last
    selected value leaves. *)
Lemma sizing_last (vs1 vs2 : list ConfigValue) (itm : ConfigValue) (g : Geometry) :
  unselected vs2 ->
  fold_left (sizingItem props pico esp8266) (vs1 ++ itm :: vs2) g =
    sizingItem props pico esp8266
      (fold_left (sizingItem props pico esp8266) vs1 g) itm.
Proof.
  intros H. rewrite fold_left_app. cbn [fold_left]. now apply sizing_unselected.
Qed.

(** Options after the last selection leave the layout alone. *)
Lemma later_options (opts : list ConfigOption) (g : Geometry) :
  Forall (fun o => option_ o = optSeek pico -> unselected (values o)) opts ->
  sameLayout (fold_left (scanOption props pico esp8266) opts g) g.
Proof.
  intros H. revert g. induction H as [|o opts Ho _ IH]; intros g;
    [apply sameLayout_refl|].
  cbn [fold_left]. eapply sameLayout_trans; [apply IH|].
  unfold scanOption.
  destruct (String.eqb (option_ o) (optSeek pico)) eqn:E.
  - apply String.eqb_eq in E. rewrite sizing_unselected by auto.
    apply sameLayout_refl.
  - destruct (String.eqb (option_ o) "baud");
      [apply baud_sameLayout|apply sameLayout_refl].
Qed.



End ResolveFacts.



(** ** The geometry gate *)




Lemma outcome_of_step (r : Handler unit) (e : ErrorKind) :
  outcome r = Failed e <-> snd r = Return (Failed e).
Proof.
  unfold outcome. destruct (snd r) as [[]|o]; split; congruence.
Qed.


Lemma picoCtx_reaches : Reaches Samples.picoCtx Samples.ok Samples.picoBoard true.
Proof.
  split; [reflexivity|exists "vendor:rp2040:boardX"; split; reflexivity
         |exists 0%nat; reflexivity|reflexivity].
Defined.

Lemma espCtx_reaches : Reaches Samples.espCtx Samples.ok Samples.espBoard false.
Proof.
  split; [reflexivity|exists "vendor:esp8266:boardY"; split; reflexivity
         |exists 0%nat; reflexivity|reflexivity].
Defined.


(** ** The builder invocation *)



(** ** Build failure *)

(** C3. If the builder closes with a non-zero exit code, the invocation
    ends as a build failure with that code, its last output is the message
    carrying the code, and the builder is the only process that was
    spawned: the uploader never starts. *)
Theorem build_failure_stops (ctx : ArduinoContext) (w : World) (bd : BoardDetails)
    (pico : bool) (p : Port) (c : Z) :
  Reaches ctx w bd pico ->
  geometryRejected (geometryOf bd pico) = false ->
  port ctx = Some p ->
  protocol p = "serial" ->
  close (spawn w (mklittlefsCmd ctx w pico) (buildOptsOf ctx w bd pico))
    = Closed (Some c) ->
  c <> 0 ->
  outcome (uploadLittleFS ctx w) = Failed (BuildFailure c)
  /\ spawns (trace (uploadLittleFS ctx w))
       = [(mklittlefsCmd ctx w pico, buildOptsOf ctx w bd pico)]
  /\ exists before,
       trace (uploadLittleFS ctx w) =
         (before ++ [Fire ("ERROR:  Mklittlefs failed, error code: "
                           ++ Js.toString (Js.Int c) ++ CRLF ++ CRLF)])%list.
Proof.
  intros HR Hacc Hport Hproto Hclose Hc.
  destruct (uploadLittleFS_reached _ _ _ _ HR) as [n E].
  assert (Htruthy : codeTruthy (Some c) = true).
  { cbn. apply negb_true_iff, Z.eqb_neq, Hc. }
  unfold buildOptsOf in *. rewrite E. unfold trace, outcome. cbn [fst snd].
  rewrite spawns_app, header_spawns, spawns_pipeline, Hacc, Hport, Hproto.
  unfold succeeded. rewrite Hclose, Htruthy.
  rewrite String.eqb_refl, pipeline_eq, Hacc, Hport, Hproto, String.eqb_refl.
  cbn [fst snd].
  rewrite buildAndUpload_eq, Hclose, Htruthy. cbn [fst snd].
  split; [reflexivity|]. split; [reflexivity|].
  unfold buildFailed, codeToString.
  rewrite !app_comm_cons, !app_assoc. eexists. reflexivity.
Qed.

Lemma build_failure_stops_witness :
  outcome (uploadLittleFS Samples.picoCtx buildFails) = Failed (BuildFailure 1)
  /\ spawns (trace (uploadLittleFS Samples.picoCtx buildFails))
       = [(mklittlefsCmd Samples.picoCtx buildFails true,
           buildOptsOf Samples.picoCtx buildFails Samples.picoBoard true)].
Proof.
  assert (HR : Reaches Samples.picoCtx buildFails Samples.picoBoard true).
  { split; [reflexivity|exists "vendor:rp2040:boardX"; split; reflexivity
           |exists 0%nat; reflexivity|reflexivity]. }
  destruct (build_failure_stops Samples.picoCtx buildFails Samples.picoBoard true
              Samples.serial 1 HR eq_refl eq_refl eq_refl eq_refl)
    as (Ho & Hs & _).
  - discriminate.
  - split; [exact Ho|exact Hs].
Defined.

(** ** The upload speed *)

Lemma last_cons {A : Type} (a d : A) (l : list A) : last (a :: l) d = last l a.
Proof.
  revert a d. induction l as [|b l IH]; intros a d; [reflexivity|].
  change (last (a :: b :: l) d) with (last (b :: l) d). now rewrite !IH.
Qed.

Lemma last_app_default {A : Type} (l1 l2 : list A) (d : A) :
  last (l1 ++ l2) d = last l2 (last l1 d).
Proof.
  revert d. induction l1 as [|a l1 IH]; intros d; [reflexivity|].
  rewrite <- app_comm_cons, !last_cons. apply IH.
Qed.

Section BaudFacts.

Variable props : list (string * string).
Variables pico esp8266 : bool.

Lemma baud_last (vs : list ConfigValue) (g : Geometry) :
  uploadSpeed (fold_left baudItem vs g) =
    last (map (fun v => Js.Number (Some (value v))) (filter selected vs))
         (uploadSpeed g).
Proof.
  revert g. induction vs as [|v vs IH]; intros g; [reflexivity|].
  cbn [fold_left filter]. rewrite IH. unfold baudItem.
  destruct (selected v); [|reflexivity].
  cbn [map uploadSpeed]. now rewrite last_cons.
Qed.

Lemma scan_uploadSpeed (opts : list ConfigOption) (g : Geometry) :
  uploadSpeed (fold_left (scanOption props pico esp8266) opts g) =
    last (map (fun v => Js.Number (Some (value v))) (selectedBaud opts))
         (uploadSpeed g).
Proof.
  revert g. induction opts as [|o opts IH]; intros g; [reflexivity|].
  cbn [fold_left]. rewrite IH. unfold selectedBaud, scanOption.
  cbn [filter].
  destruct (String.eqb (option_ o) (optSeek pico)) eqn:E.
  - apply String.eqb_eq in E. rewrite E, optSeek_not_baud.
    now rewrite sizing_uploadSpeed.
  - destruct (String.eqb (option_ o) "baud"); [|reflexivity].
    cbn [flat_map]. rewrite filter_app, map_app, last_app_default.
    now rewrite baud_last.
Qed.

End BaudFacts.

Lemma uploadSpeed_baudOf (bd : BoardDetails) (pico : bool) :
  uploadSpeed (geometryOf bd pico) = baudOf (configOptions bd).
Proof. unfold geometryOf, resolveGeometry, baudOf. now rewrite scan_uploadSpeed. Qed.

(** C4. On esp8266, when the build succeeded, the second process spawned is
    the interpreter running the upload script with
    [--chip esp8266 --port port --baud baud write_flash start image], where
    the baud rate is the parsed selected value of the [baud] option and
    115200 when that option has no selected value. *)
Theorem esp8266_upload_invocation (ctx : ArduinoContext) (w : World)
    (bd : BoardDetails) (p : Port) :
  Reaches ctx w bd false ->
  geometryRejected (geometryOf bd false) = false ->
  port ctx = Some p ->
  protocol p = "serial" ->
  succeeded (spawn w (mklittlefsCmd ctx w false) (buildOptsOf ctx w bd false)) = true ->
  nth_error (spawns (trace (uploadLittleFS ctx w))) 1 =
    Some (under (findTool ctx "runtime.tools.python3") ("python3" ++ ext w),
          [under (findTool ctx "runtime.platform.path") "tools/upload.py";
           "--chip"; "esp8266"; "--port"; address p;
           "--baud"; Js.toString (baudOf (configOptions bd));
           "write_flash"; Js.toString (fsStart (geometryOf bd false));
           tmpNameSync w ".littlefs.bin"])
  /\ (selectedBaud (configOptions bd) = [] -> baudOf (configOptions bd) = Js.Int 115200)
  /\ (forall v, selectedBaud (configOptions bd) = [v] ->
        baudOf (configOptions bd) = Js.NumberOfString (value v)).
Proof.
  intros HR Hacc Hport Hproto Hok.
  destruct (uploadLittleFS_reached _ _ _ _ HR) as [n E].
  split; [|split].
  - rewrite E. unfold trace, buildOptsOf in *. cbn [fst].
    rewrite spawns_app, header_spawns, spawns_pipeline, Hacc, Hport, Hproto,
      String.eqb_refl, Hok.
    cbn [app nth_error]. unfold uploadOptsOf, uploadOptsEsp.
    now rewrite uploadSpeed_baudOf.
  - unfold baudOf. now intros ->.
  - unfold baudOf. now intros v ->.
Qed.

Lemma esp8266_upload_invocation_witness :
  nth_error (spawns (trace (uploadLittleFS Samples.espCtx Samples.ok))) 1 =
    Some ("python3",
          ["/opt/esp/tools/upload.py"; "--chip"; "esp8266"; "--port"; "/dev/ttyACM0";
           "--baud"; "460800"; "write_flash"; "2097152"; "/tmp/tmp-1.littlefs.bin"]).
Proof.
  exact (proj1 (esp8266_upload_invocation Samples.espCtx Samples.ok Samples.espBoard
                  Samples.serial espCtx_reaches eq_refl eq_refl eq_refl eq_refl)).
Defined.

(** ** Several selected values *)

Lemma append_assoc (a b c : string) : ((a ++ b) ++ c = a ++ b ++ c)%string.
Proof.
  induction a as [|x a IH]; [reflexivity|].
  change (String x ((a ++ b) ++ c) = String x (a ++ b ++ c))%string.
  now rewrite IH.
Qed.

(** The state the scan ends in when [itm] is the last selected value of
    the sizing option [opt] and no later sizing option selects anything. *)
Lemma last_selected_layout (props : list (string * string)) (pico esp8266 : bool)
    (opts1 opts2 : list ConfigOption) (opt : ConfigOption)
    (vs1 vs2 : list ConfigValue) (itm : ConfigValue) :
  option_ opt = optSeek pico ->
  values opt = (vs1 ++ itm :: vs2)%list ->
  selected itm = true ->
  unselected vs2 ->
  Forall (fun o => option_ o = optSeek pico -> unselected (values o)) opts2 ->
  exists g1,
    sameLayout (resolveGeometry props pico esp8266 (opts1 ++ opt :: opts2))
               (sizingItem props pico esp8266 g1 itm).
Proof.
  intros Hopt Hvals Hsel Hvs2 Hopts2.
  exists (fold_left (sizingItem props pico esp8266) vs1
            (fold_left (scanOption props pico esp8266) opts1 initialGeometry)).
  unfold resolveGeometry. rewrite fold_left_app. cbn [fold_left].
  eapply sameLayout_trans; [apply later_options, Hopts2|].
  unfold scanOption. rewrite Hopt, String.eqb_refl, Hvals, sizing_last by exact Hvs2.
  apply sameLayout_refl.
Qed.

(** C9. When the values of the sizing option are [vs1 ++ itm :: vs2] with
    [itm] selected and nothing selected after it (whatever is selected in
    [vs1]), and no later sizing option selects anything, the resolved start
    and end are the build properties looked up for [itm]; page and block
    size are the two constants on rp2040 and [itm]'s properties on
    esp8266. *)
Theorem last_selected_wins (props : list (string * string)) (pico esp8266 : bool)
    (opts1 opts2 : list ConfigOption) (opt : ConfigOption)
    (vs1 vs2 : list ConfigValue) (itm : ConfigValue) :
  option_ opt = optSeek pico ->
  values opt = (vs1 ++ itm :: vs2)%list ->
  selected itm = true ->
  unselected vs2 ->
  Forall (fun o => option_ o = optSeek pico -> unselected (values o)) opts2 ->
  fsStart (resolveGeometry props pico esp8266 (opts1 ++ opt :: opts2)) =
    Js.Number (getProperty props
      ("menu." ++ optSeek pico ++ "." ++ value itm ++ ".build." ++ startMarker pico))
  /\ fsEnd (resolveGeometry props pico esp8266 (opts1 ++ opt :: opts2)) =
    Js.Number (getProperty props
      ("menu." ++ optSeek pico ++ "." ++ value itm ++ ".build." ++ endMarker pico))
  /\ (pico = true ->
      page (resolveGeometry props pico esp8266 (opts1 ++ opt :: opts2)) = Js.Int 256
      /\ blocksize (resolveGeometry props pico esp8266 (opts1 ++ opt :: opts2))
           = Js.Int 4096)
  /\ (pico = false -> esp8266 = true ->
      page (resolveGeometry props pico esp8266 (opts1 ++ opt :: opts2)) =
        Js.Number (getProperty props
          ("menu." ++ optSeek pico ++ "." ++ value itm ++ ".build." ++ "spiffs_pagesize"))
      /\ blocksize (resolveGeometry props pico esp8266 (opts1 ++ opt :: opts2)) =
        Js.Number (getProperty props
          ("menu." ++ optSeek pico ++ "." ++ value itm ++ ".build." ++ "spiffs_blocksize"))).
Proof.
  intros Hopt Hvals Hsel Hvs2 Hopts2.
  destruct (last_selected_layout props pico esp8266 opts1 opts2 opt vs1 vs2 itm
              Hopt Hvals Hsel Hvs2 Hopts2) as (g1 & Hs & He & Hp & Hb).
  rewrite Hs, He, Hp, Hb. unfold sizingItem, menustr. rewrite Hsel, !append_assoc.
  destruct pico, esp8266; cbn [fsStart fsEnd page blocksize];
    repeat split; intros; try discriminate; reflexivity.
Qed.

Lemma last_selected_wins_witness :
  fsStart (resolveGeometry TwoSelected.props true false [TwoSelected.flash]) = Js.Int 300
  /\ fsEnd (resolveGeometry TwoSelected.props true false [TwoSelected.flash]) = Js.Int 900.
Proof.
  destruct (last_selected_wins TwoSelected.props true false [] [] TwoSelected.flash
              [Samples.cv "A" true] [Samples.cv "C" false] (Samples.cv "B" true)
              eq_refl eq_refl eq_refl
              (Forall_cons (Samples.cv "C" false) (eq_refl false) (Forall_nil _))
              (Forall_nil _))
    as (Hs & He & _).
  split; [exact Hs|exact He].
Defined.

(** ** Properties that are absent or not numbers *)

Lemma rejected_run (ctx : ArduinoContext) (w : World) (bd : BoardDetails) (pico : bool) :
  Reaches ctx w bd pico ->
  geometryRejected (geometryOf bd pico) = true ->
  exists n,
    uploadLittleFS ctx w =
      ((header n ctx ++ [noFilesystem])%list, Return (Failed MissingFilesystemConfig)).
Proof.
  intros HR Hrej. destruct (uploadLittleFS_reached _ _ _ _ HR) as [n E].
  exists n. now rewrite E, pipeline_eq, Hrej.
Qed.





(** ** Order of the port check and the tool lookups *)

(** C5, as the design document states it, fails: with no port selected the
    builder tool has already been looked up when the port is checked. *)
Lemma port_check_not_first :
  ~ (forall ctx w pre post m,
       trace (uploadLittleFS ctx w) = (pre ++ PortCheck :: post)%list ->
       ~ In (FindTool m) pre).
Proof.
  intros H.
  set (ctx := {| boardDetails := Some Samples.picoBoard;
                 fqbn := Some "vendor:rp2040:boardX";
                 sketchPath := Some "/home/u/sketch"; port := None |}).
  apply (H ctx Samples.ok
           [Fire (ESC ++ "[2J" ++ ESC ++ "[3J" ++ ESC ++ "[;H");
            Fire ("LittleFS Filesystem Uploader" ++ CRLF ++ CRLF);
            ExistsSync "/home/u/sketch/data";
            FindTool "runtime.tools.pqt-mklittlefs"]
           [Fire ("ERROR: No port specified, check IDE menus." ++ CRLF)]
           "runtime.tools.pqt-mklittlefs").
  - reflexivity.
  - right. right. right. left. reflexivity.
Qed.

(** C5, amended.  The tool lookups, the port check and the spawns of an
    invocation always form a prefix of: builder lookup, port check,
    interpreter lookup, builder spawn, platform-path lookup, uploader
    spawn.  So the port is checked after the builder tool has been looked
    up, and before the interpreter and the upload script are looked up and
    before anything is spawned. *)
Theorem port_check_order (ctx : ArduinoContext) (w : World) :
  exists (k : nat) (pico : bool) (builder uploader : string * list string),
    marks (trace (uploadLittleFS ctx w)) =
      firstn k
        [FindTool (if pico then "runtime.tools.pqt-mklittlefs"
                   else "runtime.tools.mklittlefs");
         PortCheck;
         FindTool (if pico then "runtime.tools.pqt-python3"
                   else "runtime.tools.python3");
         Spawn (fst builder) (snd builder);
         FindTool "runtime.platform.path";
         Spawn (fst uploader) (snd uploader)].
Proof.
  destruct (uploadLittleFS_cases ctx w) as [(bd & pico & HR)|[Hm _]];
    [|exists 0%nat, true, ("", []), ("", []); exact Hm].
  destruct (uploadLittleFS_reached _ _ _ _ HR) as [n E].
  rewrite E. unfold trace. cbn [fst].
  rewrite marks_app, header_marks, pipeline_eq. cbn [app].
  destruct (geometryRejected (geometryOf bd pico));
    [exists 0%nat, true, ("", []), ("", []); reflexivity|].
  destruct (port ctx) as [p|];
    [|exists 2%nat, pico, ("", []), ("", []); reflexivity].
  destruct (String.eqb (protocol p) "serial");
    [|exists 2%nat, pico, ("", []), ("", []); reflexivity].
  cbn [fst]. rewrite !marks_cons, marks_buildAndUpload. cbn [isMark app].
  destruct (succeeded _).
  - exists 6%nat, pico,
      (mklittlefsCmd ctx w pico,
       buildOpts (dataFolderOf ctx) (geometryOf bd pico) (imageFileOf w)),
      (python3Cmd ctx w pico,
       uploadOptsOf ctx pico (geometryOf bd pico) (address p) (imageFileOf w)).
    reflexivity.
  - exists 4%nat, pico,
      (mklittlefsCmd ctx w pico,
       buildOpts (dataFolderOf ctx) (geometryOf bd pico) (imageFileOf w)),
      ("", []).
    reflexivity.
Qed.

(** ** Line endings of forwarded output *)

Lemma split_nonempty (sep : ascii) (s : string) : split sep s <> [].
Proof.
  destruct s as [|c s]; cbn; [discriminate|].
  destruct (Ascii.eqb c sep); [discriminate|].
  destruct (split sep s); discriminate.
Qed.

Lemma join_cons (sep x : string) (rest : list string) :
  rest <> [] -> join sep (x :: rest) = (x ++ sep ++ join sep rest)%string.
Proof. destruct rest; [congruence|reflexivity]. Qed.

Lemma join_push (sep : string) (c : ascii) (h : string) (t : list string) :
  join sep (String c h :: t) = String c (join sep (h :: t)).
Proof. destruct t; reflexivity. Qed.

(** The regular-expression replacement is the split at line feeds joined
    back with CR LF. *)
Lemma replaceLF_split_join (s : string) :
  replaceLF s = join CRLF (split (ascii_of_nat 10) s).
Proof.
  induction s as [|c s IH]; [reflexivity|].
  cbn [replaceLF split]. destruct (Ascii.eqb c (ascii_of_nat 10)).
  - rewrite join_cons by apply split_nonempty. now rewrite IH.
  - destruct (split (ascii_of_nat 10) s) as [|h t] eqn:E;
      [now apply split_nonempty in E|].
    now rewrite join_push, IH.
Qed.

Lemma replaceLF_bare (s : string) (prevCR : bool) :
  crlfFreeFrom prevCR s = true -> replaceLF s = rewriteBareLFFrom prevCR s.
Proof.
  revert prevCR. induction s as [|c s IH]; intros prevCR H; [reflexivity|].
  cbn [crlfFreeFrom] in H. apply andb_true_iff in H. destruct H as [H1 H2].
  cbn [replaceLF rewriteBareLFFrom].
  destruct (Ascii.eqb c (ascii_of_nat 10)) eqn:E.
  - rewrite andb_true_r in H1. apply negb_true_iff in H1. subst prevCR.
    apply Ascii.eqb_eq in E. subst c.
    f_equal. f_equal. apply IH. exact H2.
  - f_equal. apply IH. exact H2.
Qed.

(** C6, as stated, fails: a line that already ends in CR LF is not left
    unchanged, its line feed gets a second carriage return. *)
Lemma crlf_not_preserved :
  forwarded {| errorEvent := None; stdout := ["ok" ++ CRLF]; stderr := [];
               close := Closed (Some 0) |}
    = [Fire ("ok" ++ CR ++ CR ++ LF)]
  /\ rewriteBareLF ("ok" ++ CRLF) = "ok" ++ CRLF
  /\ replaceLF ("ok" ++ CRLF) <> rewriteBareLF ("ok" ++ CRLF).
Proof. split; [reflexivity|]. split; [reflexivity|discriminate]. Qed.

(** C6, amended.  Every chunk of a child's output is forwarded, standard
    output first, with every line feed replaced by CR LF, whether or not a
    carriage return precedes it: the forwarded text is the chunk split at
    its line feeds and joined with CR LF.  On a chunk in which no line feed
    follows a carriage return this is the rewriting of bare line feeds. *)
Theorem forwarded_line_endings (p : ChildProcess) :
  forwarded p = map (fun chunk => Fire (replaceLF chunk)) (stdout p ++ stderr p)
  /\ (forall chunk, replaceLF chunk = join CRLF (split (ascii_of_nat 10) chunk))
  /\ (forall chunk, crlfFree chunk = true -> replaceLF chunk = rewriteBareLF chunk).
Proof.
  split; [unfold forwarded; now rewrite map_app|].
  split; [apply replaceLF_split_join|].
  intros chunk H. now apply replaceLF_bare.
Qed.

Lemma forwarded_line_endings_witness :
  replaceLF ("a" ++ LF ++ "b" ++ LF) = rewriteBareLF ("a" ++ LF ++ "b" ++ LF).
Proof.
  apply (proj2 (proj2 (forwarded_line_endings
                         {| errorEvent := None; stdout := []; stderr := [];
                            close := NoClose |}))).
  reflexivity.
Defined.

(** ** A tool that cannot be launched *)




(** ** Running the pipeline twice *)

Lemma spawns_of_marks (t : list Event) : spawns (marks t) = spawns t.
Proof.
  induction t as [|e t IH]; [reflexivity|].
  rewrite marks_cons, spawns_app, spawns_cons, IH.
  destruct e; reflexivity.
Qed.






(** ** Tool lookup *)

Section FindToolFacts.

Variable m : string.

Lemma findTool_found (P : list (string * string)) (ks : list string) (r : option string) :
  fold_left (findToolStep P m) ks (true, r) = (true, r).
Proof.
  induction ks as [|k ks IH]; [reflexivity|].
  cbn [fold_left]. unfold findToolStep at 2. cbn [negb].
  now rewrite andb_false_r.
Qed.

Lemma findTool_scan (P l : list (string * string)) :
  (forall k, In k (map fst l) -> getProperty P k <> None) ->
  fold_left (findToolStep P m) (map fst l) (false, None) =
    match firstWithPrefix m l with
    | Some (k, _) => (true, getProperty P k)
    | None => (false, None)
    end.
Proof.
  unfold firstWithPrefix.
  induction l as [|[k v] l IH]; intros Hdef; [reflexivity|].
  cbn [map fst fold_left find]. unfold findToolStep at 2. cbn [negb].
  destruct (prefix m k) eqn:Hp.
  - assert (Hk : getProperty P k <> None) by (apply Hdef; left; reflexivity).
    destruct (getProperty P k) as [x|]; [|congruence].
    cbn [isDefined andb]. apply findTool_found.
  - cbn [andb]. apply IH. intros k' Hin. apply Hdef. right. exact Hin.
Qed.

Lemma getProperty_defined (l : list (string * string)) (k : string) :
  In k (map fst l) -> getProperty l k <> None.
Proof.
  induction l as [|[k0 v0] l IH]; [intros []|].
  cbn [map fst In getProperty]. intros [->|Hin].
  - now rewrite String.eqb_refl.
  - destruct (String.eqb k0 k); [discriminate|auto].
Qed.

Lemma firstWithPrefix_lookup (l : list (string * string)) (k v : string) :
  firstWithPrefix m l = Some (k, v) -> getProperty l k = Some v.
Proof.
  unfold firstWithPrefix.
  induction l as [|[k0 v0] l IH]; [discriminate|].
  cbn [find fst getProperty]. destruct (prefix m k0) eqn:Hp.
  - intros [= -> ->]. now rewrite String.eqb_refl.
  - intros H. destruct (String.eqb k0 k) eqn:E; [|auto].
    apply String.eqb_eq in E. subst k0.
    apply find_some in H. cbn [fst] in H. destruct H as [_ H]. congruence.
Qed.

Lemma findTool_find (ctx : ArduinoContext) :
  findTool ctx m =
    match boardDetails ctx with
    | Some bd => option_map snd (firstWithPrefix m (buildProperties bd))
    | None => None
    end.
Proof.
  unfold findTool. destruct (boardDetails ctx) as [bd|]; [|reflexivity].
  rewrite findTool_scan by apply getProperty_defined.
  destruct (firstWithPrefix m (buildProperties bd)) as [[k v]|] eqn:E; [|reflexivity].
  cbn [snd option_map]. now apply firstWithPrefix_lookup.
Qed.

End FindToolFacts.

(** X1. [findTool] returns the value of the first build property, in key
    order, whose key starts with the given prefix: later matching keys do
    not count. *)
Theorem findTool_first_match (ctx : ArduinoContext) (bd : BoardDetails) (m : string)
    (pre post : list (string * string)) (k v : string) :
  boardDetails ctx = Some bd ->
  buildProperties bd = (pre ++ (k, v) :: post)%list ->
  (forall k' v', In (k', v') pre -> prefix m k' = false) ->
  prefix m k = true ->
  findTool ctx m = Some v.
Proof.
  intros Hbd Hprops Hpre Hk.
  rewrite findTool_find, Hbd, Hprops. unfold firstWithPrefix.
  assert (H : find (fun kv => prefix m (fst kv)) (pre ++ (k, v) :: post) = Some (k, v)).
  { clear Hprops. induction pre as [|[k0 v0] pre IH]; cbn [app find fst].
    - now rewrite Hk.
    - rewrite (Hpre k0 v0) by (left; reflexivity).
      apply IH. intros k' v' Hin. apply (Hpre k' v'). right. exact Hin. }
  now rewrite H.
Qed.

Lemma findTool_first_match_witness :
  findTool Samples.picoCtx "runtime.tools.pqt-" = Some "/opt/pqt/mklittlefs".
Proof.
  apply (findTool_first_match Samples.picoCtx Samples.picoBoard "runtime.tools.pqt-"
           [("menu.flash.4M_1M.build.fs_start", "0x300000");
            ("menu.flash.4M_1M.build.fs_end", "0x400000");
            ("menu.flash.4M_2M.build.fs_start", "2097152");
            ("menu.flash.4M_2M.build.fs_end", "4194304")]
           [("runtime.tools.pqt-python3.path", "/opt/pqt/python3");
            ("runtime.platform.path", "/opt/pico")]
           "runtime.tools.pqt-mklittlefs.path" "/opt/pqt/mklittlefs").
  - reflexivity.
  - reflexivity.
  - intros k' v' [[= <- <-]|[[= <- <-]|[[= <- <-]|[[= <- <-]|[]]]]]; reflexivity.
  - reflexivity.
Defined.

(** X2. [findTool] finds nothing exactly when there are no board details
    or no build property key starts with the prefix; and a value it
    returns is the value of a build property whose key starts with the
    prefix. *)
Theorem findTool_none_iff (ctx : ArduinoContext) (m : string) :
  (findTool ctx m = None <->
     boardDetails ctx = None
     \/ exists bd, boardDetails ctx = Some bd
          /\ forall k v, In (k, v) (buildProperties bd) -> prefix m k = false)
  /\ (forall v, findTool ctx m = Some v ->
        exists bd k, boardDetails ctx = Some bd
          /\ In (k, v) (buildProperties bd) /\ prefix m k = true).
Proof.
  rewrite findTool_find. unfold firstWithPrefix.
  destruct (boardDetails ctx) as [bd|].
  - destruct (find (fun kv => prefix m (fst kv)) (buildProperties bd))
      as [[k v]|] eqn:E; cbn [option_map snd].
    + apply find_some in E. cbn [fst] in E. destruct E as [Hin Hp].
      split; [split|].
      * discriminate.
      * intros [H|(bd' & [= <-] & H)]; [discriminate|].
        rewrite (H k v Hin) in Hp. discriminate.
      * intros v' [= <-]. exists bd, k. auto.
    + split; [split; auto|discriminate].
      intros _. right. exists bd. split; [reflexivity|].
      intros k v Hin. apply (find_none _ _ E (k, v) Hin).
  - split; [split; auto|discriminate].
Qed.

(** ** The board family *)

Lemma append_cons (x : ascii) (a b : string) :
  (String x a ++ b)%string = String x (a ++ b).
Proof. reflexivity. Qed.

Lemma split_segment (sep : ascii) (v rest : string) :
  without sep v = true ->
  split sep (v ++ String sep rest) = v :: split sep rest.
Proof.
  induction v as [|x v IH]; intros H.
  - change (split sep (String sep rest) = "" :: split sep rest).
    cbn [split]. now rewrite Ascii.eqb_refl.
  - cbn [without] in H. apply andb_true_iff in H. destruct H as [Hx Hv].
    apply negb_true_iff in Hx.
    rewrite append_cons. cbn [split]. rewrite Hx, IH by exact Hv. reflexivity.
Qed.

Lemma split_last_segment (sep : ascii) (v : string) :
  without sep v = true -> split sep v = [v].
Proof.
  induction v as [|x v IH]; intros H; [reflexivity|].
  cbn [without] in H. apply andb_true_iff in H. destruct H as [Hx Hv].
  apply negb_true_iff in Hx. cbn [split]. now rewrite Hx, IH.
Qed.

(** X3. The family is read from the second colon-separated segment of the
    board name alone: the vendor and whatever follows the second segment
    do not matter, and a name without a colon has no family. *)
Theorem family_second_segment (vendor seg rest : string) :
  without ":" vendor = true ->
  without ":" seg = true ->
  family (vendor ++ ":" ++ seg) =
    (if String.eqb seg "rp2040" then Some (true, false)
     else if String.eqb seg "esp8266" then Some (false, true)
     else None)
  /\ family (vendor ++ ":" ++ seg ++ ":" ++ rest) = family (vendor ++ ":" ++ seg)
  /\ family vendor = None.
Proof.
  intros Hv Hs. unfold family.
  change (vendor ++ ":" ++ seg)%string with (vendor ++ String ":" seg)%string.
  change (vendor ++ ":" ++ seg ++ ":" ++ rest)%string
    with (vendor ++ String ":" (seg ++ String ":" rest))%string.
  rewrite !split_segment, split_last_segment, (split_last_segment _ vendor)
    by assumption.
  cbn [nth_error]. repeat split.
Qed.

Lemma family_second_segment_witness :
  family ("vendor" ++ ":" ++ "rp2040" ++ ":" ++ "boardX:opt=1") = Some (true, false).
Proof.
  destruct (family_second_segment "vendor" "rp2040" "boardX:opt=1" eq_refl eq_refl)
    as (H1 & H2 & _).
  rewrite H2. exact H1.
Defined.

(** ** The precondition gates *)

Lemma pipeline_outcomes (ctx : ArduinoContext) (w : World) (bd : BoardDetails)
    (pico : bool) :
  let r := snd (pipeline ctx w bd (dataFolderOf ctx) pico (negb pico)) in
  r = Return (Failed MissingFilesystemConfig)
  \/ r = Return (Failed UnsupportedPort)
  \/ r = Return Pending
  \/ (exists c, r = Return (Failed (BuildFailure c)))
  \/ (exists c, r = Return (Failed (UploadFailure c)))
  \/ r = Next tt.
Proof.
  cbv zeta. rewrite pipeline_eq.
  destruct (geometryRejected (geometryOf bd pico)); [auto|].
  destruct (port ctx) as [p|]; [|auto].
  destruct (String.eqb (protocol p) "serial"); [|auto].
  cbn [snd]. rewrite outcome_buildAndUpload.
  destruct (close _) as [|code]; [auto|].
  destruct (codeTruthy code); [eauto 6|].
  rewrite outcome_uploadStage.
  destruct (close _) as [|code']; [auto|].
  destruct (codeTruthy code'); [eauto 8|auto 8].
Qed.

Lemma reached_outcome_late (ctx : ArduinoContext) (w : World) (bd : BoardDetails)
    (pico : bool) :
  Reaches ctx w bd pico ->
  outcome (uploadLittleFS ctx w) <> Failed MissingBoardDetails
  /\ outcome (uploadLittleFS ctx w) <> Failed MissingDataFolder
  /\ outcome (uploadLittleFS ctx w) <> Failed UnsupportedBoard.
Proof.
  intros HR. destruct (uploadLittleFS_reached _ _ _ _ HR) as [n E].
  rewrite E. unfold outcome. cbn [snd].
  destruct (pipeline_outcomes ctx w bd pico) as [H|[H|[H|[(c & H)|[(c & H)|H]]]]];
    cbv zeta in H; rewrite H; repeat split; discriminate.
Qed.

(** X4. The gates before the pipeline are tested in this order: board
    details and board name, then the data folder, then the family.  Each
    of the three errors is reported exactly in its case; in particular a
    missing data folder is reported even for a board of an unsupported
    family. *)
Theorem precondition_outcomes (ctx : ArduinoContext) (w : World) :
  (outcome (uploadLittleFS ctx w) = Failed MissingBoardDetails <->
     boardDetails ctx = None \/ fqbn ctx = None)
  /\ (outcome (uploadLittleFS ctx w) = Failed MissingDataFolder <->
        boardDetails ctx <> None /\ fqbn ctx <> None
        /\ writerReadyAfter w <> None
        /\ existsSync w (dataFolderOf ctx) = false)
  /\ (outcome (uploadLittleFS ctx w) = Failed UnsupportedBoard <->
        boardDetails ctx <> None
        /\ writerReadyAfter w <> None
        /\ existsSync w (dataFolderOf ctx) = true
        /\ exists fq, fqbn ctx = Some fq /\ family fq = None).
Proof.
  destruct (boardDetails ctx) as [bd|] eqn:Hbd; [destruct (fqbn ctx) as [fq|] eqn:Hfq|].
  2,3: unfold uploadLittleFS; rewrite Hbd, ?Hfq; cbn;
       repeat split; intros; try tauto; try discriminate;
       try (now intuition congruence);
       try (destruct H as (_ & _ & _ & fq' & Hx & _); discriminate).
  destruct (writerReadyAfter w) as [n|] eqn:Hn.
  2: { unfold uploadLittleFS, awaitWriterReady. rewrite Hbd, Hfq, Hn. cbn.
       repeat split; intros; try discriminate; intuition congruence. }
  destruct (existsSync w (dataFolderOf ctx)) eqn:Hdata.
  2: { unfold uploadLittleFS, awaitWriterReady, failWhen. rewrite Hbd, Hfq, Hn, Hdata.
       cbn. repeat split; intros; try discriminate; try congruence;
         intuition congruence. }
  destruct (family fq) as [[pico esp]|] eqn:Hfam.
  - assert (HR : Reaches ctx w bd pico).
    { split; eauto. exists fq. split; [exact Hfq|].
      destruct (family_cases _ _ _ Hfam) as [[-> ->]|[-> ->]]; exact Hfam. }
    destruct (reached_outcome_late _ _ _ _ HR) as (H1 & H2 & H3).
    repeat split; intros; try contradiction; try discriminate;
      try intuition congruence.
    destruct H as (_ & _ & _ & fq' & [= <-] & Hx). congruence.
  - unfold uploadLittleFS, awaitWriterReady, failWhen.
    rewrite Hbd, Hfq, Hn, Hdata, Hfam. cbn.
    repeat split; intros; try discriminate; try congruence;
      try intuition congruence.
    exists fq. auto.
Qed.

(** X5. An invocation that ends at one of the four early errors (board
    details, data folder, family, filesystem geometry) has looked up no
    tool, has not checked the port and has spawned nothing. *)
Theorem early_errors_touch_nothing (ctx : ArduinoContext) (w : World) :
  outcome (uploadLittleFS ctx w) = Failed MissingBoardDetails
  \/ outcome (uploadLittleFS ctx w) = Failed MissingDataFolder
  \/ outcome (uploadLittleFS ctx w) = Failed UnsupportedBoard
  \/ outcome (uploadLittleFS ctx w) = Failed MissingFilesystemConfig ->
  marks (trace (uploadLittleFS ctx w)) = []
  /\ spawns (trace (uploadLittleFS ctx w)) = [].
Proof.
  intros H.
  assert (Hm : marks (trace (uploadLittleFS ctx w)) = []).
  { destruct (uploadLittleFS_cases ctx w) as [(bd & pico & HR)|[Hm _]]; [|exact Hm].
    destruct (reached_outcome_late _ _ _ _ HR) as (H1 & H2 & H3).
    destruct H as [H|[H|[H|H]]]; try contradiction.
    destruct (geometryRejected (geometryOf bd pico)) eqn:Hrej.
    - destruct (rejected_run _ _ _ _ HR Hrej) as [n ->].
      unfold trace. cbn [fst]. now rewrite marks_app, header_marks.
    - destruct (uploadLittleFS_reached _ _ _ _ HR) as [n E].
      apply outcome_of_step in H. rewrite E in H. cbn [snd] in H.
      now destruct (accepted_outcome ctx w bd pico Hrej). }
  split; [exact Hm|]. now rewrite <- spawns_of_marks, Hm.
Qed.

Lemma early_errors_touch_nothing_witness :
  marks (trace (uploadLittleFS Unparsable.ctx Samples.ok)) = []
  /\ spawns (trace (uploadLittleFS Unparsable.ctx Samples.ok)) = [].
Proof.
  apply (early_errors_touch_nothing Unparsable.ctx Samples.ok).
  right. right. right. reflexivity.
Defined.

(** ** Nothing selected *)

(** X6. When no value of the sizing option is marked selected (or the
    option is missing), the geometry keeps its zero sentinels and the
    invocation ends with the missing-filesystem message as its only output
    after the banner. *)
Theorem nothing_selected_rejected (ctx : ArduinoContext) (w : World)
    (bd : BoardDetails) (pico : bool) :
  Reaches ctx w bd pico ->
  Forall (fun o => option_ o = optSeek pico -> unselected (values o))
         (configOptions bd) ->
  sameLayout (geometryOf bd pico) initialGeometry
  /\ outcome (uploadLittleFS ctx w) = Failed MissingFilesystemConfig
  /\ exists n,
       trace (uploadLittleFS ctx w) =
         (header n ctx
          ++ [Fire ("ERROR: No filesystem specified, check flash size menu" ++ CRLF)])%list.
Proof.
  intros HR Hnone.
  assert (Hsame : sameLayout (geometryOf bd pico) initialGeometry).
  { unfold geometryOf, resolveGeometry. now apply later_options. }
  assert (Hrej : geometryRejected (geometryOf bd pico) = true).
  { unfold geometryRejected. destruct Hsame as (-> & _). reflexivity. }
  destruct (rejected_run _ _ _ _ HR Hrej) as [n E].
  rewrite E. split; [exact Hsame|]. split; [reflexivity|]. exists n. reflexivity.
Qed.

Lemma nothing_selected_rejected_witness :
  outcome (uploadLittleFS NothingSelected.ctx Samples.ok)
    = Failed MissingFilesystemConfig.
Proof.
  assert (HR : Reaches NothingSelected.ctx Samples.ok NothingSelected.board true).
  { split; [reflexivity|exists "vendor:rp2040:boardX"; split; reflexivity
           |exists 0%nat; reflexivity|reflexivity]. }
  refine (proj1 (proj2 (nothing_selected_rejected NothingSelected.ctx Samples.ok
                          NothingSelected.board true HR _))).
  constructor; [|constructor].
  intros _. constructor; [reflexivity|]. constructor; [reflexivity|constructor].
Defined.

(** ** The port gate *)

Lemma tmp_header (n : nat) (ctx : ArduinoContext) : filter isTmpName (header n ctx) = [].
Proof.
  unfold header. rewrite filter_app. cbn [filter isTmpName].
  rewrite app_nil_r. induction n; [reflexivity|exact IHn].
Qed.

(** X7. With an accepted geometry, the invocation ends as an unsupported
    port exactly when no port is selected or the selected port's protocol
    is not [serial]; by then only the builder tool has been looked up, no
    temporary name has been drawn and nothing has been spawned. *)
Theorem port_gate (ctx : ArduinoContext) (w : World) (bd : BoardDetails)
    (pico : bool) :
  Reaches ctx w bd pico ->
  geometryRejected (geometryOf bd pico) = false ->
  (outcome (uploadLittleFS ctx w) = Failed UnsupportedPort <->
     port ctx = None \/ exists p, port ctx = Some p /\ protocol p <> "serial")
  /\ (outcome (uploadLittleFS ctx w) = Failed UnsupportedPort ->
      marks (trace (uploadLittleFS ctx w)) =
        [FindTool (if pico then "runtime.tools.pqt-mklittlefs"
                   else "runtime.tools.mklittlefs");
         PortCheck]
      /\ filter isTmpName (trace (uploadLittleFS ctx w)) = []).
Proof.
  intros HR Hacc. destruct (uploadLittleFS_reached _ _ _ _ HR) as [n E].
  rewrite outcome_of_step, E. unfold trace. cbn [fst snd].
  rewrite marks_app, header_marks, filter_app, tmp_header, pipeline_eq, Hacc.
  cbn [app].
  destruct (port ctx) as [p|].
  - destruct (String.eqb (protocol p) "serial") eqn:Hp.
    + apply String.eqb_eq in Hp. cbn [snd].
      assert (Hno : snd (buildAndUpload ctx w pico (geometryOf bd pico)
                           (mklittlefsCmd ctx w pico) (python3Cmd ctx w pico)
                           (dataFolderOf ctx) (address p) (imageFileOf w))
                    <> Return (Failed UnsupportedPort)).
      { rewrite outcome_buildAndUpload.
        destruct (close _) as [|code]; [discriminate|].
        destruct (codeTruthy code); [discriminate|].
        rewrite outcome_uploadStage.
        destruct (close _) as [|code']; [discriminate|].
        destruct (codeTruthy code'); discriminate. }
      split; [split|]; try (intros H; now contradiction Hno).
      intros [H|(p' & [= <-] & H)]; [discriminate|contradiction].
    + apply String.eqb_neq in Hp. cbn [fst snd]. split; [split; auto|].
      * intros _. right. exists p. auto.
      * intros _. destruct pico; split; reflexivity.
  - cbn [fst snd]. split; [split; auto|].
    intros _. destruct pico; split; reflexivity.
Qed.

Lemma port_gate_witness :
  outcome (uploadLittleFS NoPort.ctx Samples.ok) = Failed UnsupportedPort.
Proof.
  assert (HR : Reaches NoPort.ctx Samples.ok Samples.picoBoard true).
  { split; [reflexivity|exists "vendor:rp2040:boardX"; split; reflexivity
           |exists 0%nat; reflexivity|reflexivity]. }
  apply (proj2 (proj1 (port_gate NoPort.ctx Samples.ok Samples.picoBoard true
                         HR eq_refl))).
  left. reflexivity.
Defined.

(** ** The upload stage *)

(** X8. On rp2040, when the build succeeded, the second process spawned is
    the interpreter running the UF2 converter with
    [--base start --serial port --family RP2040 image]; the selected baud
    rate plays no part. *)
Theorem rp2040_upload_invocation (ctx : ArduinoContext) (w : World)
    (bd : BoardDetails) (p : Port) :
  Reaches ctx w bd true ->
  geometryRejected (geometryOf bd true) = false ->
  port ctx = Some p ->
  protocol p = "serial" ->
  succeeded (spawn w (mklittlefsCmd ctx w true) (buildOptsOf ctx w bd true)) = true ->
  nth_error (spawns (trace (uploadLittleFS ctx w))) 1 =
    Some (under (findTool ctx "runtime.tools.pqt-python3") ("python3" ++ ext w),
          [under (findTool ctx "runtime.platform.path") "tools/uf2conv.py";
           "--base"; Js.toString (fsStart (geometryOf bd true));
           "--serial"; address p; "--family"; "RP2040";
           tmpNameSync w ".littlefs.bin"]).
Proof.
  intros HR Hacc Hport Hproto Hok.
  destruct (uploadLittleFS_reached _ _ _ _ HR) as [n E].
  rewrite E. unfold trace, buildOptsOf in *. cbn [fst].
  rewrite spawns_app, header_spawns, spawns_pipeline, Hacc, Hport, Hproto,
    String.eqb_refl, Hok.
  reflexivity.
Qed.

Lemma rp2040_upload_invocation_witness :
  nth_error (spawns (trace (uploadLittleFS Samples.picoCtx Samples.ok))) 1 =
    Some ("/opt/pqt/python3/python3",
          ["/opt/pico/tools/uf2conv.py"; "--base"; "3145728"; "--serial";
           "/dev/ttyACM0"; "--family"; "RP2040"; "/tmp/tmp-1.littlefs.bin"]).
Proof.
  exact (rp2040_upload_invocation Samples.picoCtx Samples.ok Samples.picoBoard
           Samples.serial picoCtx_reaches eq_refl eq_refl eq_refl eq_refl).
Defined.

(** The run of an invocation that got past the port gate. *)
Lemma built_run (ctx : ArduinoContext) (w : World) (bd : BoardDetails)
    (pico : bool) (p : Port) :
  Reaches ctx w bd pico ->
  geometryRejected (geometryOf bd pico) = false ->
  port ctx = Some p ->
  protocol p = "serial" ->
  exists n,
    uploadLittleFS ctx w =
      ((header n ctx
        ++ FindTool (mklittlefsKey pico) :: PortCheck
           :: FindTool (python3Key pico) :: TmpNameSync ".littlefs.bin"
           :: fst (buildAndUpload ctx w pico (geometryOf bd pico)
                     (mklittlefsCmd ctx w pico) (python3Cmd ctx w pico)
                     (dataFolderOf ctx) (address p) (imageFileOf w)))%list,
       snd (buildAndUpload ctx w pico (geometryOf bd pico)
              (mklittlefsCmd ctx w pico) (python3Cmd ctx w pico)
              (dataFolderOf ctx) (address p) (imageFileOf w))).
Proof.
  intros HR Hacc Hport Hproto.
  destruct (uploadLittleFS_reached _ _ _ _ HR) as [n E]. exists n.
  now rewrite E, pipeline_eq, Hacc, Hport, Hproto, String.eqb_refl.
Qed.

Lemma notices_app (t1 t2 : list Event) :
  notices (t1 ++ t2) = (notices t1 ++ notices t2)%list.
Proof. apply filter_app. Qed.

Lemma notices_header (n : nat) (ctx : ArduinoContext) : notices (header n ctx) = [].
Proof.
  unfold header. rewrite notices_app. cbn. rewrite app_nil_r.
  induction n; [reflexivity|assumption].
Qed.

Lemma notices_forwarded (p : ChildProcess) : notices (forwarded p) = [].
Proof.
  assert (Hl : forall l, notices (map (fun chunk => Fire (replaceLF chunk)) l) = []).
  { induction l; [reflexivity|assumption]. }
  unfold forwarded. now rewrite notices_app, !Hl.
Qed.

Lemma notices_cons (e : Event) (t : list Event) :
  notices (e :: t) = ((if isNotice e then [e] else []) ++ notices t)%list.
Proof. unfold notices. cbn [filter]. destruct (isNotice e); reflexivity. Qed.

Lemma notices_uploadStage (ctx : ArduinoContext) (w : World) (pico : bool)
    (g : Geometry) (py sp img : string) :
  notices (fst (uploadStage ctx w pico g py sp img)) =
    if succeeded (spawn w py (uploadOptsOf ctx pico g sp img))
    then [ShowInformationMessage "LittleFS upload completed!"] else [].
Proof.
  rewrite uploadStage_eq. unfold succeeded.
  destruct (close _) as [|code]; [|destruct (codeTruthy code)];
    cbn [fst negb]; unfold announceUpload, completed, uploadFailed;
    rewrite !notices_cons, ?notices_app, notices_forwarded; reflexivity.
Qed.

Lemma notices_buildAndUpload (ctx : ArduinoContext) (w : World) (pico : bool)
    (g : Geometry) (mk py df sp img : string) :
  notices (fst (buildAndUpload ctx w pico g mk py df sp img)) =
    if succeeded (spawn w mk (buildOpts df g img))
       && succeeded (spawn w py (uploadOptsOf ctx pico g sp img))
    then [ShowInformationMessage "LittleFS upload completed!"] else [].
Proof.
  rewrite buildAndUpload_eq. unfold succeeded at 1.
  destruct (close (spawn w mk _)) as [|code]; [|destruct (codeTruthy code)];
    cbn [fst negb andb]; unfold announceBuild, buildFailed;
    rewrite ?notices_app, !notices_cons, ?notices_app, notices_forwarded,
      ?notices_uploadStage; reflexivity.
Qed.

(** X9. If the build succeeded and the uploader closes with a non-zero
    exit code, the invocation ends as an upload failure with that code:
    both tools were spawned, the last output is the message carrying the
    code, and no completion is announced. *)
Theorem upload_failure_reported (ctx : ArduinoContext) (w : World)
    (bd : BoardDetails) (pico : bool) (p : Port) (c : Z) :
  Reaches ctx w bd pico ->
  geometryRejected (geometryOf bd pico) = false ->
  port ctx = Some p ->
  protocol p = "serial" ->
  succeeded (spawn w (mklittlefsCmd ctx w pico) (buildOptsOf ctx w bd pico)) = true ->
  close (spawn w (python3Cmd ctx w pico)
           (uploadOptsOf ctx pico (geometryOf bd pico) (address p) (imageFileOf w)))
    = Closed (Some c) ->
  c <> 0 ->
  outcome (uploadLittleFS ctx w) = Failed (UploadFailure c)
  /\ List.length (spawns (trace (uploadLittleFS ctx w))) = 2%nat
  /\ notices (trace (uploadLittleFS ctx w)) = []
  /\ exists before,
       trace (uploadLittleFS ctx w) =
         (before ++ [Fire ("ERROR:  Upload failed, error code: "
                           ++ Js.toString (Js.Int c) ++ CRLF ++ CRLF)])%list.
Proof.
  intros HR Hacc Hport Hproto Hok Hclose Hc.
  assert (Htruthy : codeTruthy (Some c) = true).
  { cbn. apply negb_true_iff, Z.eqb_neq, Hc. }
  destruct (built_run _ _ _ _ _ HR Hacc Hport Hproto) as [n E].
  assert (Hbad : succeeded (spawn w (python3Cmd ctx w pico)
                   (uploadOptsOf ctx pico (geometryOf bd pico) (address p)
                      (imageFileOf w))) = false).
  { unfold succeeded. now rewrite Hclose, Htruthy. }
  unfold buildOptsOf in Hok. rewrite E. unfold trace, outcome. cbn [fst snd].
  split; [|split; [|split]].
  - rewrite outcome_buildAndUpload. unfold succeeded in Hok.
    destruct (close (spawn w (mklittlefsCmd ctx w pico) _)) as [|code];
      [discriminate|].
    apply negb_true_iff in Hok.
    now rewrite Hok, outcome_uploadStage, Hclose, Htruthy.
  - rewrite spawns_app, header_spawns, !spawns_cons, spawns_buildAndUpload, Hok.
    reflexivity.
  - rewrite notices_app, notices_header, !notices_cons, notices_buildAndUpload,
      Hok, Hbad.
    reflexivity.
  - rewrite buildAndUpload_eq. unfold succeeded in Hok.
    destruct (close (spawn w (mklittlefsCmd ctx w pico) _)) as [|code];
      [discriminate|].
    apply negb_true_iff in Hok. rewrite Hok, uploadStage_eq, Hclose, Htruthy.
    cbn [fst]. unfold uploadFailed, codeToString.
    rewrite !app_comm_cons, !app_assoc. eexists. reflexivity.
Qed.

Lemma picoCtx_reaches_in (tmp : string) (p : string -> list string -> ChildProcess) :
  Reaches Samples.picoCtx (Samples.world tmp p) Samples.picoBoard true.
Proof.
  split; [reflexivity|exists "vendor:rp2040:boardX"; split; reflexivity
         |exists 0%nat; reflexivity|reflexivity].
Defined.

Lemma upload_failure_reported_witness :
  outcome (uploadLittleFS Samples.picoCtx uploadFails) = Failed (UploadFailure 2)
  /\ List.length (spawns (trace (uploadLittleFS Samples.picoCtx uploadFails))) = 2%nat.
Proof.
  destruct (upload_failure_reported Samples.picoCtx uploadFails Samples.picoBoard true
              Samples.serial 2 (picoCtx_reaches_in _ _)
              eq_refl eq_refl eq_refl eq_refl eq_refl)
    as (Ho & Hl & _).
  - discriminate.
  - split; [exact Ho|exact Hl].
Defined.

(** ** Notifications *)

(** X10. The only pop-up notifications of an invocation are the error
    dialog for missing board details and the information message of a
    completed upload; every other error goes to the terminal only. *)
Theorem notifications (ctx : ArduinoContext) (w : World) :
  notices (trace (uploadLittleFS ctx w)) =
    match outcome (uploadLittleFS ctx w) with
    | Completed => [ShowInformationMessage "LittleFS upload completed!"]
    | Failed MissingBoardDetails =>
        [ShowErrorMessage "Board details not available. Compile the sketch once."]
    | _ => []
    end.
Proof.
  destruct (boardDetails ctx) as [bd|] eqn:Hbd;
    [|unfold uploadLittleFS; now rewrite Hbd].
  destruct (fqbn ctx) as [fq|] eqn:Hfq;
    [|unfold uploadLittleFS; now rewrite Hbd, Hfq].
  destruct (writerReadyAfter w) as [n|] eqn:Hn;
    [|unfold uploadLittleFS, awaitWriterReady; now rewrite Hbd, Hfq, Hn].
  assert (Hhead : forall e,
             notices (repeat (SetTimeout 100) n
                      ++ Fire (ESC ++ "[2J" ++ ESC ++ "[3J" ++ ESC ++ "[;H")
                      :: Fire ("LittleFS Filesystem Uploader" ++ CRLF ++ CRLF)
                      :: ExistsSync (dataFolderOf ctx) :: [Fire e]) = []).
  { intros e. rewrite notices_app. cbn. rewrite app_nil_r.
    clear. induction n; [reflexivity|assumption]. }
  destruct (existsSync w (dataFolderOf ctx)) eqn:Hdata.
  2: { unfold uploadLittleFS, awaitWriterReady, failWhen.
       rewrite Hbd, Hfq, Hn, Hdata.
       unfold trace, outcome, fire, emit, exit, ret. cbn [bind fst snd app negb].
       apply Hhead. }
  destruct (family fq) as [[pico esp]|] eqn:Hfam.
  2: { unfold uploadLittleFS, awaitWriterReady, failWhen.
       rewrite Hbd, Hfq, Hn, Hdata, Hfam.
       unfold trace, outcome, fire, emit, exit, ret. cbn [bind fst snd app negb].
       apply Hhead. }
  assert (HR : Reaches ctx w bd pico).
  { split; eauto. exists fq. split; [exact Hfq|].
    destruct (family_cases _ _ _ Hfam) as [[-> ->]|[-> ->]]; exact Hfam. }
  destruct (uploadLittleFS_reached _ _ _ _ HR) as [n' E]. rewrite E. clear E.
  unfold trace, outcome. cbn [fst snd].
  rewrite notices_app, notices_header, pipeline_eq. cbn [app].
  destruct (geometryRejected (geometryOf bd pico)); [reflexivity|].
  destruct (port ctx) as [p|]; [|reflexivity].
  destruct (String.eqb (protocol p) "serial"); [|reflexivity].
  cbn [fst snd].
  rewrite !notices_cons, notices_buildAndUpload, outcome_buildAndUpload.
  cbn [isNotice app]. unfold succeeded at 1.
  destruct (close (spawn w (mklittlefsCmd ctx w pico) _)) as [|code]; [reflexivity|].
  destruct (codeTruthy code); [reflexivity|]. cbn [negb andb].
  rewrite outcome_uploadStage. unfold succeeded.
  destruct (close _) as [|code']; [reflexivity|].
  destruct (codeTruthy code'); reflexivity.
Qed.

(** ** A tool ended by a signal *)

(** X11. A builder that is ended by a signal closes with the code [null],
    which the handler takes for success: no build failure is reported and
    the uploader is spawned all the same. *)
Theorem signal_is_success (ctx : ArduinoContext) (w : World) (bd : BoardDetails)
    (pico : bool) (p : Port) :
  Reaches ctx w bd pico ->
  geometryRejected (geometryOf bd pico) = false ->
  port ctx = Some p ->
  protocol p = "serial" ->
  close (spawn w (mklittlefsCmd ctx w pico) (buildOptsOf ctx w bd pico))
    = Closed None ->
  spawns (trace (uploadLittleFS ctx w)) =
    [(mklittlefsCmd ctx w pico, buildOptsOf ctx w bd pico);
     (python3Cmd ctx w pico,
      uploadOptsOf ctx pico (geometryOf bd pico) (address p) (imageFileOf w))]
  /\ (forall c, outcome (uploadLittleFS ctx w) <> Failed (BuildFailure c)).
Proof.
  intros HR Hacc Hport Hproto Hclose.
  destruct (built_run _ _ _ _ _ HR Hacc Hport Hproto) as [n E].
  unfold buildOptsOf in *. rewrite E. unfold trace, outcome. cbn [fst snd]. split.
  - rewrite spawns_app, header_spawns, !spawns_cons, spawns_buildAndUpload.
    unfold succeeded. now rewrite Hclose.
  - intros c. rewrite outcome_buildAndUpload, Hclose. cbn [codeTruthy].
    rewrite outcome_uploadStage.
    destruct (close (spawn w (python3Cmd ctx w pico) _)) as [|code'];
      [discriminate|].
    destruct (codeTruthy code'); discriminate.
Qed.

Lemma signal_is_success_witness :
  List.length (spawns (trace (uploadLittleFS Samples.picoCtx builderKilled))) = 2%nat.
Proof.
  rewrite (proj1 (signal_is_success Samples.picoCtx builderKilled Samples.picoBoard
                    true Samples.serial (picoCtx_reaches_in _ _)
                    eq_refl eq_refl eq_refl eq_refl)).
  reflexivity.
Defined.

(** ** The image and the commands *)

(** X12. When the build succeeded, exactly two processes are spawned and
    both end their argument lists with the same path, the temporary image
    name drawn in this run: the uploader is given the file the builder was
    told to write. *)
Theorem uploads_built_image (ctx : ArduinoContext) (w : World) (bd : BoardDetails)
    (pico : bool) (p : Port) :
  Reaches ctx w bd pico ->
  geometryRejected (geometryOf bd pico) = false ->
  port ctx = Some p ->
  protocol p = "serial" ->
  succeeded (spawn w (mklittlefsCmd ctx w pico) (buildOptsOf ctx w bd pico)) = true ->
  exists builder uploader,
    spawns (trace (uploadLittleFS ctx w)) = [builder; uploader]
    /\ last (snd builder) "" = tmpNameSync w ".littlefs.bin"
    /\ last (snd uploader) "" = tmpNameSync w ".littlefs.bin".
Proof.
  intros HR Hacc Hport Hproto Hok.
  destruct (built_run _ _ _ _ _ HR Hacc Hport Hproto) as [n E].
  unfold buildOptsOf in *. rewrite E. unfold trace. cbn [fst].
  rewrite spawns_app, header_spawns, !spawns_cons, spawns_buildAndUpload, Hok.
  cbn [spawnOf app]. do 2 eexists. split; [reflexivity|]. cbn [snd].
  split; [reflexivity|]. unfold uploadOptsOf. destruct pico; reflexivity.
Qed.

Lemma uploads_built_image_witness :
  exists builder uploader,
    spawns (trace (uploadLittleFS Samples.picoCtx Samples.ok)) = [builder; uploader]
    /\ last (snd builder) "" = "/tmp/tmp-1.littlefs.bin"
    /\ last (snd uploader) "" = "/tmp/tmp-1.littlefs.bin".
Proof.
  exact (uploads_built_image Samples.picoCtx Samples.ok Samples.picoBoard true
           Samples.serial picoCtx_reaches eq_refl eq_refl eq_refl eq_refl).
Defined.

(** X13. The builder command falls back to the bare executable name when
    no build property key starts with the family's tool prefix (or the
    first such property is empty); otherwise it is that property's value,
    a slash and the name.  The name carries [.exe] exactly on [win32]. *)
Theorem builder_command (ctx : ArduinoContext) (w : World) (bd : BoardDetails)
    (pico : bool) (p : Port) :
  Reaches ctx w bd pico ->
  geometryRejected (geometryOf bd pico) = false ->
  port ctx = Some p ->
  protocol p = "serial" ->
  exists args,
    hd_error (spawns (trace (uploadLittleFS ctx w))) =
      Some (match firstWithPrefix
                    (if pico then "runtime.tools.pqt-mklittlefs"
                     else "runtime.tools.mklittlefs")
                    (buildProperties bd) with
            | Some (_, String c dir) =>
                String c dir ++ "/" ++ "mklittlefs"
                ++ (if String.eqb (platform w) "win32" then ".exe" else "")
            | _ =>
                "mklittlefs"
                ++ (if String.eqb (platform w) "win32" then ".exe" else "")
            end,
            args).
Proof.
  intros HR Hacc Hport Hproto.
  destruct (built_run _ _ _ _ _ HR Hacc Hport Hproto) as [n E].
  rewrite E. unfold trace. cbn [fst].
  rewrite spawns_app, header_spawns, !spawns_cons, spawns_buildAndUpload.
  cbn [spawnOf app hd_error]. eexists. f_equal. f_equal.
  unfold mklittlefsCmd, mklittlefsKey, ext.
  rewrite findTool_find, (reach_board _ _ _ _ HR).
  destruct (firstWithPrefix _ _) as [[k [|c dir]]|]; reflexivity.
Qed.

Lemma builder_command_witness :
  exists args,
    hd_error (spawns (trace (uploadLittleFS Samples.espCtx Samples.ok))) =
      Some ("mklittlefs", args).
Proof.
  exact (builder_command Samples.espCtx Samples.ok Samples.espBoard false
           Samples.serial espCtx_reaches eq_refl eq_refl eq_refl).
Defined.

(** ** The echoed command lines *)

Lemma in_spawns (c : string) (a : list string) (t : list Event) :
  In (Spawn c a) t -> In (c, a) (spawns t).
Proof.
  induction t as [|e t IH]; [intros []|].
  intros [->|H]; rewrite spawns_cons; apply in_or_app.
  - left. left. reflexivity.
  - right. auto.
Qed.

Lemma builder_echoed (ctx : ArduinoContext) (w : World) (pico : bool) (g : Geometry)
    (mk py df sp img : string) :
  In (Fire (commandLine mk (buildOpts df g img)))
     (fst (buildAndUpload ctx w pico g mk py df sp img)).
Proof.
  rewrite buildAndUpload_eq.
  destruct (close _) as [|code]; [|destruct (codeTruthy code)]; cbn [fst];
    rewrite <- ?app_assoc; apply in_or_app; left; right; left; reflexivity.
Qed.

Lemma uploader_echoed (ctx : ArduinoContext) (w : World) (pico : bool) (g : Geometry)
    (mk py df sp img : string) :
  succeeded (spawn w mk (buildOpts df g img)) = true ->
  In (Fire (commandLine py (uploadOptsOf ctx pico g sp img)))
     (fst (buildAndUpload ctx w pico g mk py df sp img)).
Proof.
  unfold succeeded. intros Hok. rewrite buildAndUpload_eq.
  destruct (close (spawn w mk _)) as [|code]; [discriminate|].
  apply negb_true_iff in Hok. rewrite Hok. cbn [fst].
  apply in_or_app. right. rewrite uploadStage_eq.
  destruct (close _) as [|code']; [|destruct (codeTruthy code')]; cbn [fst];
    right; apply in_or_app; left; right; left; reflexivity.
Qed.

(** X14. Whatever an invocation spawns, it has echoed to the terminal: for
    every spawned command with its arguments, the line made of the
    command and the arguments separated by single spaces is among the
    run's terminal output. *)
Theorem spawned_commands_echoed (ctx : ArduinoContext) (w : World)
    (command : string) (args : list string) :
  In (Spawn command args) (trace (uploadLittleFS ctx w)) ->
  In (Fire (command ++ " " ++ join " " args ++ CRLF)) (trace (uploadLittleFS ctx w)).
Proof.
  intros Hin. apply in_spawns in Hin.
  destruct (uploadLittleFS_cases ctx w) as [(bd & pico & HR)|[Hm _]].
  2: { rewrite <- spawns_of_marks, Hm in Hin. destruct Hin. }
  destruct (uploadLittleFS_reached _ _ _ _ HR) as [n E].
  rewrite E in *. unfold trace in *. cbn [fst] in *.
  rewrite spawns_app, header_spawns, spawns_pipeline in Hin. cbn [app] in Hin.
  rewrite pipeline_eq.
  destruct (geometryRejected (geometryOf bd pico)); [destruct Hin|].
  destruct (port ctx) as [p|]; [|destruct Hin].
  destruct (String.eqb (protocol p) "serial"); [|destruct Hin].
  cbn [fst]. apply in_or_app. right. do 4 right.
  destruct Hin as [[= <- <-]|Hin]; [apply builder_echoed|].
  destruct (succeeded _) eqn:Hok; [|destruct Hin].
  destruct Hin as [[= <- <-]|[]]. now apply uploader_echoed.
Qed.

Lemma spawned_commands_echoed_witness :
  In (Fire ("mklittlefs -c /home/u/sketch/data -p 256 -b 8192 -s 1028096 "
            ++ "/tmp/tmp-1.littlefs.bin" ++ CRLF))
     (trace (uploadLittleFS Samples.espCtx Samples.ok)).
Proof.
  apply (spawned_commands_echoed Samples.espCtx Samples.ok "mklittlefs"
           ["-c"; "/home/u/sketch/data"; "-p"; "256"; "-b"; "8192"; "-s"; "1028096";
            "/tmp/tmp-1.littlefs.bin"]).
  do 9 right. left. reflexivity.
Defined.

(** ** More on line endings *)




Lemma replaceLF_guarded (s : string) (prevCR : bool) :
  lfGuardedFrom prevCR (replaceLF s) = true.
Proof.
  revert prevCR. induction s as [|c s IH]; intros prevCR; [reflexivity|].
  cbn [replaceLF]. destruct (Ascii.eqb c (ascii_of_nat 10)) eqn:E.
  - cbn [lfGuardedFrom]. rewrite IH. reflexivity.
  - cbn [lfGuardedFrom]. now rewrite E, IH.
Qed.

Lemma replaceLF_length (s : string) :
  String.length (replaceLF s) = (String.length s + countLF s)%nat.
Proof.
  induction s as [|c s IH]; [reflexivity|].
  cbn [replaceLF countLF String.length].
  destruct (Ascii.eqb c (ascii_of_nat 10)); cbn [String.length]; rewrite IH; lia.
Qed.

(** X16. In forwarded text every line feed directly follows a carriage
    return, and the text is longer than the chunk by one character per
    line feed of the chunk. *)
Theorem forwarded_text_shape (chunk : string) :
  lfGuarded (replaceLF chunk) = true
  /\ String.length (replaceLF chunk) = (String.length chunk + countLF chunk)%nat
  /\ countLF (replaceLF chunk) = countLF chunk.
Proof.
  split; [apply replaceLF_guarded|]. split; [apply replaceLF_length|].
  induction chunk as [|c s IH]; [reflexivity|].
  cbn [replaceLF]. destruct (Ascii.eqb c (ascii_of_nat 10)) eqn:E;
    cbn [countLF]; rewrite ?E, IH; reflexivity.
Qed.

(** ** What the scan reads *)

Lemma sizingItem_sameLayout (props : list (string * string)) (pico esp8266 : bool)
    (g g' : Geometry) (itm : ConfigValue) :
  sameLayout g g' ->
  sameLayout (sizingItem props pico esp8266 g itm) (sizingItem props pico esp8266 g' itm).
Proof.
  intros (H1 & H2 & H3 & H4). unfold sizingItem, sameLayout.
  destruct (selected itm), pico, esp8266; cbn [fsStart fsEnd page blocksize]; auto.
Qed.

Lemma sizing_sameLayout (props : list (string * string)) (pico esp8266 : bool)
    (vs : list ConfigValue) (g g' : Geometry) :
  sameLayout g g' ->
  sameLayout (fold_left (sizingItem props pico esp8266) vs g)
             (fold_left (sizingItem props pico esp8266) vs g').
Proof.
  revert g g'. induction vs as [|v vs IH]; intros g g' H; [exact H|].
  cbn [fold_left]. apply IH. now apply sizingItem_sameLayout.
Qed.

Lemma scan_sizing_only (props : list (string * string)) (pico esp8266 : bool)
    (opts : list ConfigOption) (g g' : Geometry) :
  sameLayout g g' ->
  sameLayout (fold_left (scanOption props pico esp8266) opts g)
             (fold_left (scanOption props pico esp8266) (sizingOptions pico opts) g').
Proof.
  revert g g'. induction opts as [|o opts IH]; intros g g' H; [exact H|].
  unfold sizingOptions. cbn [fold_left filter].
  destruct (String.eqb (option_ o) (optSeek pico)) eqn:E.
  - cbn [fold_left]. apply IH. unfold scanOption. rewrite E.
    now apply sizing_sameLayout.
  - apply IH. eapply sameLayout_trans; [|exact H].
    unfold scanOption. rewrite E.
    destruct (String.eqb (option_ o) "baud");
      [apply baud_sameLayout|apply sameLayout_refl].
Qed.

Lemma selectedBaud_filter (opts : list ConfigOption) :
  selectedBaud (filter (fun o => String.eqb (option_ o) "baud") opts) = selectedBaud opts.
Proof.
  unfold selectedBaud. f_equal. f_equal.
  induction opts as [|o opts IH]; [reflexivity|].
  cbn [filter]. destruct (String.eqb (option_ o) "baud") eqn:E; [|exact IH].
  cbn [filter]. now rewrite E, IH.
Qed.

(** X17. The resolved layout (start, end, page and block size) depends on
    the sizing options only, and the upload speed on the [baud] options
    only: dropping every other option from the configuration changes
    neither. *)
Theorem scan_reads_two_options (props : list (string * string)) (pico esp8266 : bool)
    (opts : list ConfigOption) :
  sameLayout (resolveGeometry props pico esp8266 opts)
             (resolveGeometry props pico esp8266 (sizingOptions pico opts))
  /\ uploadSpeed (resolveGeometry props pico esp8266 opts) =
       uploadSpeed (resolveGeometry props pico esp8266
                      (filter (fun o => String.eqb (option_ o) "baud") opts)).
Proof.
  unfold resolveGeometry. split.
  - apply scan_sizing_only, sameLayout_refl.
  - now rewrite !scan_uploadSpeed, selectedBaud_filter.
Qed.

(** ** The terminal and the activation *)



(** X19. [activate] registers the upload command and creates the terminal
    exactly when the Arduino context extension was loaded; without it the
    window gets one error message and keeps its terminals. *)
Theorem activate_needs_context (exports : option ArduinoContext)
    (terminals : list string) :
  (In (RegisterCommand "arduino-littlefs-upload.uploadLittleFS")
      (fst (activate exports terminals)) <-> exports <> None)
  /\ (In (CreateTerminal "LittleFS Upload") (fst (activate exports terminals))
      <-> exports <> None)
  /\ (exports = None ->
      activate exports terminals =
        ([WindowError "Unable to load the Arduino IDE Context extension."], terminals)).
Proof.
  destruct exports as [ctx|]; cbn [activate fst].
  - repeat split; try discriminate; intros _.
    + apply in_or_app. right. left. reflexivity.
    + apply in_or_app. left. unfold makeTerminal. cbn [fst].
      apply in_or_app. right. left. reflexivity.
  - repeat split; try congruence; intros [H|[]]; discriminate.
Qed.

(** ** How a run past the port gate ends *)

(** X20. Once the builder is spawned, the ['close'] events of the two
    tools decide the outcome: a missing ['close'] leaves the invocation
    pending, a non-zero code of the builder is a build failure (the
    uploader's behaviour is then irrelevant), a non-zero code of the
    uploader an upload failure, and the invocation completes exactly when
    both tools closed with a zero or [null] code. *)
Theorem outcome_after_port_gate (ctx : ArduinoContext) (w : World)
    (bd : BoardDetails) (pico : bool) (p : Port) :
  Reaches ctx w bd pico ->
  geometryRejected (geometryOf bd pico) = false ->
  port ctx = Some p ->
  protocol p = "serial" ->
  outcome (uploadLittleFS ctx w) =
    match close (spawn w (mklittlefsCmd ctx w pico) (buildOptsOf ctx w bd pico)) with
    | NoClose => Pending
    | Closed code =>
        if codeTruthy code then Failed (BuildFailure (codeValue code))
        else match close (spawn w (python3Cmd ctx w pico)
                            (uploadOptsOf ctx pico (geometryOf bd pico)
                               (address p) (imageFileOf w))) with
             | NoClose => Pending
             | Closed code' =>
                 if codeTruthy code' then Failed (UploadFailure (codeValue code'))
                 else Completed
             end
    end
  /\ (outcome (uploadLittleFS ctx w) = Completed <->
      succeeded (spawn w (mklittlefsCmd ctx w pico) (buildOptsOf ctx w bd pico)) = true
      /\ succeeded (spawn w (python3Cmd ctx w pico)
                      (uploadOptsOf ctx pico (geometryOf bd pico)
                         (address p) (imageFileOf w))) = true).
Proof.
  intros HR Hacc Hport Hproto.
  destruct (built_run _ _ _ _ _ HR Hacc Hport Hproto) as [n E].
  rewrite E. unfold outcome, buildOptsOf, succeeded. cbn [snd].
  rewrite outcome_buildAndUpload.
  destruct (close (spawn w (mklittlefsCmd ctx w pico) _)) as [|code].
  { split; [reflexivity|]. split; [discriminate|intros [? _]; discriminate]. }
  destruct (codeTruthy code).
  { split; [reflexivity|]. split; [discriminate|intros [? _]; discriminate]. }
  rewrite outcome_uploadStage.
  destruct (close (spawn w (python3Cmd ctx w pico) _)) as [|code'].
  { split; [reflexivity|]. split; [discriminate|intros [_ ?]; discriminate]. }
  destruct (codeTruthy code').
  { split; [reflexivity|]. split; [discriminate|intros [_ ?]; discriminate]. }
  split; [reflexivity|]. split; auto.
Qed.

Lemma outcome_after_port_gate_witness :
  outcome (uploadLittleFS Samples.picoCtx uploadFails) = Failed (UploadFailure 2).
Proof.
  exact (proj1 (outcome_after_port_gate Samples.picoCtx uploadFails Samples.picoBoard
                  true Samples.serial (picoCtx_reaches_in _ _)
                  eq_refl eq_refl eq_refl)).
Defined.

(** ** The start of the terminal output *)

(** X21. Nothing is written to the terminal before it has opened, and the
    first two things written are the clear sequence and the banner: a run
    with any terminal output starts with the polls of the wait loop, the
    clear sequence, the banner and the probe of the data folder. *)
Theorem output_starts_with_banner (ctx : ArduinoContext) (w : World) (s : string) :
  In (Fire s) (trace (uploadLittleFS ctx w)) ->
  exists n rest,
    writerReadyAfter w = Some n
    /\ trace (uploadLittleFS ctx w) =
         (repeat (SetTimeout 100) n
          ++ Fire (ESC ++ "[2J" ++ ESC ++ "[3J" ++ ESC ++ "[;H")
             :: Fire ("LittleFS Filesystem Uploader" ++ CRLF ++ CRLF)
             :: ExistsSync (Js.concatUndef (sketchPath ctx) "/data")
             :: rest)%list.
Proof.
  unfold uploadLittleFS.
  destruct (boardDetails ctx) as [bd|];
    [|intros [H|[]]; discriminate].
  destruct (fqbn ctx) as [fq|];
    [|intros [H|[]]; discriminate].
  unfold awaitWriterReady.
  destruct (writerReadyAfter w) as [n|]; [|intros []].
  intros _. exists n. eexists. split; [reflexivity|].
  unfold trace, fire, emit. cbn [bind fst snd app]. reflexivity.
Qed.

Lemma output_starts_with_banner_witness :
  exists n rest,
    writerReadyAfter Samples.ok = Some n
    /\ trace (uploadLittleFS NoPort.ctx Samples.ok) =
         (repeat (SetTimeout 100) n
          ++ Fire (ESC ++ "[2J" ++ ESC ++ "[3J" ++ ESC ++ "[;H")
             :: Fire ("LittleFS Filesystem Uploader" ++ CRLF ++ CRLF)
             :: ExistsSync "/home/u/sketch/data"
             :: rest)%list.
Proof.
  apply (output_starts_with_banner NoPort.ctx Samples.ok
           ("ERROR: No port specified, check IDE menus." ++ CRLF)).
  do 5 right. left. reflexivity.
Defined.
